(** * Sensor Metrics Service: a shallow embedding of [main.py]

    The service has two endpoints, [POST /metrics] ([create_metric]) and
    [GET /metrics/query] ([query_metrics]).  The embedding keeps the shape
    of the Python source and of the libraries it runs on:

    - a [datetime] is a wall-clock reading in microseconds since
      0001-01-01T00:00:00 together with an optional UTC offset ([tzinfo]);
      arithmetic that leaves the years 1 to 9999 raises [OverflowError];
    - a value is a binary64 number: a finite value is an integer number of
      units of 2^-1074, every operation is the exact operation followed by
      rounding to nearest, ties to even; the sign of zero is not kept;
    - the table is a list of [MetricDB] rows as SQLite holds them: the
      timestamp without its time zone, the value NULL where NaN was bound;
      the session is threaded explicitly through the handlers, and the
      SQLAlchemy query object is a small record built up by [add_columns],
      [filter_] and evaluated by [all];
    - [datetime.now(timezone.utc)] is an explicit [clock] argument. *)

From Stdlib Require Import ZArith QArith Qround Qabs.
From Stdlib Require Import List Sorted String Ascii Bool Lia Lqa.
Import ListNotations.

Local Open Scope string_scope.
Local Open Scope list_scope.
Local Open Scope Z_scope.

(** ** datetime and timedelta *)

Module Datetime.

(** [timedelta]: a signed duration in microseconds. *)
Definition timedelta := Z.

Definition microseconds_per_day : Z := 86400000000.

(** [timedelta(days=n)] *)
Definition timedelta_days (n : Z) : timedelta := n * microseconds_per_day.

(** [datetime]: [wall] is the wall-clock reading (microseconds since
    0001-01-01T00:00:00), [tzinfo] is [None] for a naive datetime and
    [Some off] for an aware one whose UTC offset is [off] microseconds. *)
Record datetime := mkdatetime { wall : Z; tzinfo : option Z }.

(** [timezone.utc] *)
Definition utc : Z := 0.

(** One microsecond past [datetime.max] (9999-12-31T23:59:59.999999):
    3652059 days. *)
Definition max_wall : Z := 3652059 * microseconds_per_day.

(** The wall-clock readings a [datetime] can hold. *)
Definition in_range (w : Z) : bool := (0 <=? w) && (w <? max_wall).

(** [datetime.now(timezone.utc)] when the clock reads [clock]. *)
Definition now_utc (clock : Z) : datetime :=
  {| wall := clock; tzinfo := Some utc |}.

(** [d - td]: wall-clock arithmetic, the [tzinfo] is kept; [None] is
    [OverflowError], raised when the result is out of range. *)
Definition sub_timedelta (d : datetime) (td : timedelta) : option datetime :=
  if in_range (wall d - td)
  then Some {| wall := wall d - td; tzinfo := tzinfo d |}
  else None.

(** [d.replace(tzinfo=tz)]: the wall-clock fields are untouched. *)
Definition replace_tzinfo (d : datetime) (tz : Z) : datetime :=
  {| wall := wall d; tzinfo := Some tz |}.

(** [d.utcoffset()], read as zero for a naive datetime. *)
Definition utcoffset (d : datetime) : Z :=
  match tzinfo d with
  | Some off => off
  | None => 0
  end.

(** The instant an aware datetime denotes, in UTC microseconds.  Python
    compares and subtracts aware datetimes through this value. *)
Definition instant (d : datetime) : Z := wall d - utcoffset d.

(** [a > b] on two aware datetimes. *)
Definition gtb (a b : datetime) : bool := instant b <? instant a.

(** [a - b] on two aware datetimes. *)
Definition diff (a b : datetime) : timedelta := instant a - instant b.

(** [x > y] on two timedeltas. *)
Definition td_gtb (x y : timedelta) : bool := y <? x.

End Datetime.
Import Datetime.

(** ** binary64 *)

Module Float.

(** To the nearest integer, ties to the even one. *)
Definition round_half_even (x : Q) : Z :=
  let f := Qfloor x in
  match ((x - inject_Z f) ?= (1 # 2))%Q with
  | Lt => f
  | Gt => f + 1
  | Eq => if Z.even f then f else f + 1
  end.

(** A binary64 number other than NaN (an SQL REAL): [Finite m] is
    [m * 2^-1074]. *)
Inductive real : Type :=
| Finite (m : Z)
| Infinity (negative : bool).

(** A Python float. *)
Inductive float : Type :=
| Real (x : real)
| NaN.

(** The number of units of 2^-1074 in 1.0. *)
Definition unit : Z := 2 ^ 1074.

(** The exact value of a finite number. *)
Definition exact (m : Z) : Q := (inject_Z m / inject_Z unit)%Q.

(** Rounding [t] units to a 53-bit significand: the spacing is [2^k] units,
    with [k] fixed by the magnitude of [t]. *)
Definition round_units (t : Q) : Z :=
  let k := Z.max 0 (Z.log2 (Qfloor (Qabs t)) - 52) in
  round_half_even (t / inject_Z (2 ^ k)) * 2 ^ k.

(** A rounded result of magnitude 2^1024 or more is an infinity. *)
Definition pack (m : Z) : real :=
  if 2 ^ 2098 <=? Z.abs m then Infinity (m <? 0) else Finite m.

(** The binary64 number nearest to a rational. *)
Definition of_Q (x : Q) : real := pack (round_units (x * inject_Z unit)).

(** [x + y]; [None] is NaN. *)
Definition add (x y : real) : option real :=
  match x, y with
  | Finite a, Finite b => Some (pack (round_units (inject_Z (a + b))))
  | Infinity s, Finite _ => Some (Infinity s)
  | Finite _, Infinity s => Some (Infinity s)
  | Infinity s, Infinity s' => if Bool.eqb s s' then Some (Infinity s) else None
  end.

(** [x / n] for a count [n]. *)
Definition div_count (x : real) (n : nat) : real :=
  match x with
  | Finite a => pack (round_units (inject_Z a / inject_Z (Z.of_nat n)))
  | Infinity s => Infinity s
  end.

(** [x <= y] *)
Definition leb (x y : real) : bool :=
  match x, y with
  | Finite a, Finite b => a <=? b
  | Infinity true, _ => true
  | _, Infinity false => true
  | Infinity false, _ => false
  | _, Infinity true => false
  end.

Definition is_finite (x : real) : bool :=
  match x with
  | Finite _ => true
  | Infinity _ => false
  end.

(** Python's [round(x, ndigits)]: the decimal with [ndigits] places nearest
    to the exact value of [x], ties to even, read back as a float. *)
Definition round (x : real) (ndigits : nat) : real :=
  match x with
  | Finite m =>
      let scale := inject_Z (10 ^ Z.of_nat ndigits) in
      of_Q (inject_Z (round_half_even (exact m * scale)) / scale)
  | Infinity s => Infinity s
  end.

End Float.
Import Float.

(** ** The [metrics] table and the grouped aggregate query *)

Module Store.

(** One row of table [metrics] ([class MetricDB]), as the table holds it:
    [value] is [None] for NULL, [timestamp] is naive. *)
Record MetricDB := mkMetricDB {
  id : Z;
  sensor_id : string;
  metric_type : string;
  value : option real;
  timestamp : datetime
}.

(** The session: the rows of the table, in insertion order. *)
Definition Session := list MetricDB.

(** The integer primary key given to the next inserted row: one more than
    the largest key in the table. *)
Definition next_id (db : Session) : Z :=
  1 + fold_right Z.max 0 (map id db).

(** A float bound to a REAL column: NaN is stored as NULL. *)
Definition bind_real (v : float) : option real :=
  match v with
  | Real x => Some x
  | NaN => None
  end.

(** A datetime bound to a [DateTime] column or compared with one: only the
    wall-clock fields are written, the time zone is dropped. *)
Definition bind_datetime (d : datetime) : datetime :=
  {| wall := wall d; tzinfo := None |}.

(** [column >= bound] and [column <= bound] on a [DateTime] column. *)
Definition ge_ (col : MetricDB -> datetime) (bound : datetime)
  : MetricDB -> bool :=
  fun r => wall (bind_datetime bound) <=? wall (col r).

Definition le_ (col : MetricDB -> datetime) (bound : datetime)
  : MetricDB -> bool :=
  fun r => wall (col r) <=? wall (bind_datetime bound).

(** [column.in_(l)] *)
Definition in_ (col : MetricDB -> string) (l : list string)
  : MetricDB -> bool :=
  fun r => existsb (String.eqb (col r)) l.

(** [func.min], [func.max], [func.sum], [func.avg] over [MetricDB.value]. *)
Inductive aggregate := func_min | func_max | func_sum | func_avg.

(** The non-NULL cells of a column. *)
Fixpoint non_null (cells : list (option real)) : list real :=
  match cells with
  | [] => []
  | Some x :: cells' => x :: non_null cells'
  | None :: cells' => non_null cells'
  end.

(** The running sum, started at 0.0; [None] once it is NaN. *)
Definition sum_step (acc : option real) (x : real) : option real :=
  match acc with
  | Some a => add a x
  | None => None
  end.

Definition running_sum (vals : list real) : option real :=
  fold_left sum_step vals (Some (Finite 0)).

(** An SQL aggregate over the cells of a group: NULL cells are skipped; the
    result is NULL ([None]) when no value is left, and when it is NaN. *)
Definition eval_aggregate (f : aggregate) (cells : list (option real))
  : option real :=
  match non_null cells with
  | [] => None
  | v :: vs =>
      match f with
      | func_min => Some (fold_left (fun m x => if leb x m then x else m) vs v)
      | func_max => Some (fold_left (fun m x => if leb m x then x else m) vs v)
      | func_sum => running_sum (v :: vs)
      | func_avg =>
          match running_sum (v :: vs) with
          | Some s => Some (div_count s (List.length (v :: vs)))
          | None => None
          end
      end
  end.

(** The query under construction: the aggregate columns added after
    [metric_type] and [count], and the WHERE conditions, all of which a
    row must satisfy. *)
Record Query := mkQuery {
  q_columns : list aggregate;
  q_where : list (MetricDB -> bool)
}.

(** [db.query(MetricDB.metric_type, func.count(MetricDB.value))] *)
Definition query : Query := {| q_columns := []; q_where := [] |}.

Definition add_columns (f : aggregate) (q : Query) : Query :=
  {| q_columns := q_columns q ++ [f]; q_where := q_where q |}.

Definition filter_ (p : MetricDB -> bool) (q : Query) : Query :=
  {| q_columns := q_columns q; q_where := q_where q ++ [p] |}.

(** The rows that pass the WHERE clause. *)
Definition selected (q : Query) (db : Session) : list MetricDB :=
  filter (fun r => forallb (fun p => p r) (q_where q)) db.

(** The keys of the groups: each distinct key once, in ascending byte
    order, the order in which GROUP BY delivers them. *)
Fixpoint insert_key (k : string) (keys : list string) : list string :=
  match keys with
  | [] => [k]
  | x :: keys' =>
      match String.compare k x with
      | Lt => k :: x :: keys'
      | Eq => x :: keys'
      | Gt => x :: insert_key k keys'
      end
  end.

Definition group_keys (l : list string) : list string :=
  fold_right insert_key [] l.

(** A row of the result: [row[0]] the metric type, [row[1]] the count of
    non-NULL values, and then one cell per added column. *)
Record Row := mkRow {
  row_metric_type : string;
  row_count : nat;
  row_added : list (option real)
}.

(** [row[2]]: [None] when the row has no third column (IndexError). *)
Definition row2 (r : Row) : option (option real) := nth_error (row_added r) 0.

(** The rows of one [metric_type] group. *)
Definition group (k : string) (rows : list MetricDB) : list MetricDB :=
  filter (fun r => String.eqb (metric_type r) k) rows.

(** [query.group_by(MetricDB.metric_type).all()]: one row per metric type
    that occurs among the selected rows. *)
Definition all (q : Query) (db : Session) : list Row :=
  let rows := selected q db in
  map (fun k =>
         let cells := map value (group k rows) in
         {| row_metric_type := k;
            row_count := List.length (non_null cells);
            row_added := map (fun f => eval_aggregate f cells) (q_columns q) |})
      (group_keys (map metric_type rows)).

End Store.
Import Store.

(** ** Schemas, responses and the two handlers *)

Module Api.

(** What a call produces: the handler's return value under the route's
    status code, an [HTTPException] raised by the handler, the framework's
    rejection of a malformed request (status 422), or an exception nobody
    handles (status 500). *)
Inductive response (A : Type) : Type :=
| Response (status_code : Z) (body : A)
| HTTPException (status_code : Z) (detail : string)
| RequestValidationError
| Unhandled (exn : string).
Arguments Response {A}.
Arguments HTTPException {A}.
Arguments RequestValidationError {A}.
Arguments Unhandled {A}.

Definition status {A} (r : response A) : Z :=
  match r with
  | Response s _ => s
  | HTTPException s _ => s
  | RequestValidationError => 422
  | Unhandled _ => 500
  end.

(** Status class 4xx. *)
Definition client_error {A} (r : response A) : bool :=
  (400 <=? status r) && (status r <? 500).

(** *** [class MetricCreate] *)
Record MetricCreate := mkMetricCreate {
  mc_sensor_id : string;
  mc_metric_type : string;
  mc_value : float;
  mc_timestamp : option datetime
}.

(** A field of a JSON body: left out, [null], present but not acceptable
    for the declared type (a number for a string, a malformed date), or
    carrying a value of the declared type. *)
Inductive field (A : Type) : Type :=
| Missing
| Null
| Invalid
| Given (a : A).
Arguments Missing {A}.
Arguments Null {A}.
Arguments Invalid {A}.
Arguments Given {A}.

(** A JSON number as the parser reads it: a decimal literal, or one of the
    literals [NaN], [Infinity], [-Infinity]. *)
Inductive number : Type :=
| Decimal (q : Q)
| NaN_literal
| Infinity_literal (negative : bool).

(** The float a JSON number is read as; a decimal out of range is an
    infinity. *)
Definition parse_float (x : number) : float :=
  match x with
  | Decimal q => Real (of_Q q)
  | NaN_literal => NaN
  | Infinity_literal s => Real (Infinity s)
  end.

Record Body := mkBody {
  b_sensor_id : field string;
  b_metric_type : field string;
  b_value : field number;
  b_timestamp : field datetime
}.

(** Validation of a body against [MetricCreate]: [sensor_id],
    [metric_type] and [value] are required ([Field(...)]) and not
    nullable; [timestamp] is optional, and when it is left out the
    [default_factory] supplies [datetime.now(timezone.utc)]. *)
Definition parse_MetricCreate (clock : Z) (b : Body) : option MetricCreate :=
  match b_sensor_id b, b_metric_type b, b_value b with
  | Given s, Given m, Given v =>
      match b_timestamp b with
      | Invalid => None
      | ts =>
          Some {| mc_sensor_id := s;
                  mc_metric_type := m;
                  mc_value := parse_float v;
                  mc_timestamp :=
                    match ts with
                    | Missing => Some (now_utc clock)
                    | Given d => Some d
                    | _ => None
                    end |}
      end
  | _, _, _ => None
  end.

(** *** [create_metric]: the row is added, committed and read back
    ([db.refresh]); the value returned is the row as the table holds it. *)
Definition create_metric (clock : Z) (metric : MetricCreate) (db : Session)
  : MetricDB * Session :=
  let ts :=
    match mc_timestamp metric with
    | Some d => d
    | None => now_utc clock
    end in
  let db_metric :=
    {| id := next_id db;
       sensor_id := mc_sensor_id metric;
       metric_type := mc_metric_type metric;
       value := bind_real (mc_value metric);
       timestamp := bind_datetime ts |} in
  (db_metric, db ++ [db_metric]).

(** The returned row as a [MetricResponse] in JSON: a NULL value is not a
    float ([ResponseValidationError]), an infinity has no JSON form
    ([ValueError]). *)
Definition render_metric (row : MetricDB) : response MetricDB :=
  match value row with
  | None => Unhandled "ResponseValidationError"
  | Some (Infinity _) => Unhandled "ValueError"
  | Some (Finite _) => Response 201 row
  end.

(** [POST /metrics]: the body is validated when the clock reads
    [parsed_at], then [create_metric] runs when it reads [handled_at], and
    its row is returned under status 201. *)
Definition post_metrics (parsed_at handled_at : Z) (b : Body) (db : Session)
  : response MetricDB * Session :=
  match parse_MetricCreate parsed_at b with
  | None => (RequestValidationError, db)
  | Some metric =>
      let '(row, db') := create_metric handled_at metric db in
      (render_metric row, db')
  end.

(** *** [query_metrics] *)

Record QueryResult := mkQueryResult {
  qr_metric_type : string;
  qr_statistic : string;
  qr_value : real
}.

(** The [stat_func] dictionary. *)
Definition stat_func : list (string * aggregate) :=
  [ ("min", func_min); ("max", func_max);
    ("sum", func_sum); ("average", func_avg) ].

Fixpoint get (d : list (string * aggregate)) (k : string) : option aggregate :=
  match d with
  | [] => None
  | (k', f) :: d' => if String.eqb k k' then Some f else get d' k
  end.

(** Truth value of an optional list: [None] and [[]] are false. *)
Definition truthy (l : option (list string)) : bool :=
  match l with
  | Some (_ :: _) => true
  | _ => false
  end.

Definition elements (l : option (list string)) : list string :=
  match l with
  | Some l => l
  | None => []
  end.

(** [end_date - timedelta(days=1)], or [OverflowError]. *)
Definition day_before (end_date : datetime) : option datetime :=
  sub_timedelta end_date (timedelta_days 1).

(** Lines 94 to 109: the default date range and the time-zone fix-up;
    [None] when a subtraction raises [OverflowError]. *)
Definition effective_window (clock : Z) (start_date end_date : option datetime)
  : option (datetime * datetime) :=
  let now := now_utc clock in
  let bounds :=
    match start_date, end_date with
    | None, None =>
        let end_date := now in
        match day_before end_date with
        | Some start_date => Some (start_date, end_date)
        | None => None
        end
    | Some start_date, None => Some (start_date, now)
    | None, Some end_date =>
        match day_before end_date with
        | Some start_date => Some (start_date, end_date)
        | None => None
        end
    | Some start_date, Some end_date => Some (start_date, end_date)
    end in
  match bounds with
  | None => None
  | Some (start_date, end_date) =>
      let start_date :=
        match tzinfo start_date with
        | None => replace_tzinfo start_date utc
        | Some _ => start_date
        end in
      let end_date :=
        match tzinfo end_date with
        | None => replace_tzinfo end_date utc
        | Some _ => end_date
        end in
      Some (start_date, end_date)
  end.

(** Lines 124 to 150: the grouped aggregate query for a window. *)
Definition build_query (sensor_ids metrics : option (list string))
    (statistic : string) (start_date end_date : datetime) : Query :=
  let q := query in
  let q :=
    match get stat_func statistic with
    | Some f => add_columns f q
    | None => q
    end in
  let q :=
    if truthy sensor_ids then filter_ (in_ sensor_id (elements sensor_ids)) q
    else q in
  let q :=
    if truthy metrics then filter_ (in_ metric_type (elements metrics)) q
    else q in
  let q := filter_ (ge_ timestamp start_date) q in
  let q := filter_ (le_ timestamp end_date) q in
  q.

(** Lines 154 to 166: the loop over the result rows.  A row without a
    third column makes [row[2]] raise. *)
Fixpoint shape (statistic : string) (results : list Row)
    (output : list QueryResult) : option (list QueryResult) :=
  match results with
  | [] => Some output
  | row :: results' =>
      let m_type := row_metric_type row in
      match row2 row with
      | None => None
      | Some val =>
          shape statistic results'
            match val with
            | Some v =>
                output ++ [ {| qr_metric_type := m_type;
                               qr_statistic := statistic;
                               qr_value := round v 2 |} ]
            | None => output
            end
      end
  end.

Definition start_after_end : string :=
  "Start date cannot be after end date.".
Definition range_too_large : string :=
  "Query range cannot exceed 1 month (31 days).".

(** The handler itself: [Response 200 output] stands for [return output]. *)
Definition query_metrics (clock : Z)
    (sensor_ids metrics : option (list string)) (statistic : string)
    (start_date end_date : option datetime) (db : Session)
  : response (list QueryResult) :=
  match effective_window clock start_date end_date with
  | None => Unhandled "OverflowError"
  | Some (start_date, end_date) =>
      if gtb start_date end_date then
        HTTPException 400 start_after_end
      else if td_gtb (diff end_date start_date) (timedelta_days 31) then
        HTTPException 400 range_too_large
      else
        let q := build_query sensor_ids metrics statistic start_date end_date in
        let results := all q db in
        match shape statistic results [] with
        | Some output => Response 200 output
        | None => Unhandled "IndexError"
        end
  end.

(** The returned list as JSON: an infinity has no JSON form and the
    encoder raises [ValueError]. *)
Definition render_query (r : response (list QueryResult))
  : response (list QueryResult) :=
  match r with
  | Response code output =>
      if forallb (fun entry => is_finite (qr_value entry)) output
      then Response code output
      else Unhandled "ValueError"
  | _ => r
  end.

(** The query string of [GET /metrics/query]. *)
Record Params := mkParams {
  p_sensor_ids : option (list string);
  p_metrics : option (list string);
  p_statistic : option string;
  p_start_date : option datetime;
  p_end_date : option datetime
}.

(** The language of the pattern [^(min|max|sum|average)$]. *)
Definition statistic_pattern (s : string) : bool :=
  existsb (String.eqb s) ["min"; "max"; "sum"; "average"].

(** [GET /metrics/query]: [statistic] is required and must match its
    pattern, otherwise the request is rejected and [query_metrics] is not
    called.  The call leaves the session as it was. *)
Definition get_metrics_query (clock : Z) (p : Params) (db : Session)
  : response (list QueryResult) * Session :=
  match p_statistic p with
  | None => (RequestValidationError, db)
  | Some statistic =>
      if statistic_pattern statistic then
        (render_query
           (query_metrics clock (p_sensor_ids p) (p_metrics p) statistic
              (p_start_date p) (p_end_date p) db), db)
      else (RequestValidationError, db)
  end.

End Api.
Import Api.

(** ** Reading the claims: what the specification calls a contributing row
    and a statistic *)

Module Spec.

(** 24 hours and 31 days, in microseconds. *)
Definition hours_24 : Z := 24 * 3600 * 1000000.
Definition days_31 : Z := 31 * 24 * 3600 * 1000000.

(** A bound "lacking timezone information has UTC attached without
    conversion": same wall clock, offset zero. *)
Definition attach_utc (d : datetime) : datetime :=
  match tzinfo d with
  | None => {| wall := wall d; tzinfo := Some 0 |}
  | Some _ => d
  end.

(** A wall-clock reading between 0001-01-01T00:00:00 and
    9999-12-31T23:59:59.999999. *)
Definition representable (w : Z) : Prop := 0 <= w < 3652059 * 86400000000.

(** The window test as the table applies it: the stored wall clock lies
    between the wall clocks of the two bounds, both ends included; no time
    zone takes part. *)
Definition in_window (s e : datetime) (r : MetricDB) : bool :=
  (wall s <=? wall (timestamp r)) && (wall (timestamp r) <=? wall e).

(** "x in l when l is provided": a list that is absent, or given empty,
    constrains nothing. *)
Definition wanted (l : option (list string)) (x : string) : bool :=
  match l with
  | Some (y :: l') => existsb (String.eqb x) (y :: l')
  | _ => true
  end.

(** The rows that contribute to a query. *)
Definition contributes (sensor_ids metrics : option (list string))
    (s e : datetime) (r : MetricDB) : bool :=
  wanted sensor_ids (sensor_id r) && wanted metrics (metric_type r) &&
  in_window s e r.

(** The contributing rows of metric type [k]: the group of [k]. *)
Definition rows_of (sensor_ids metrics : option (list string))
    (s e : datetime) (db : Session) (k : string) : list MetricDB :=
  filter (fun r => contributes sensor_ids metrics s e r &&
                   String.eqb (metric_type r) k) db.

(** The values of a list of rows, NULL left out. *)
Definition values_of (rows : list MetricDB) : list real :=
  flat_map (fun r => match value r with Some x => [x] | None => [] end) rows.

(** [sums_to vals a]: adding the values one after the other in binary64,
    starting from 0.0, gives [a], and no intermediate result is NaN. *)
Inductive sums_to : list real -> real -> Prop :=
| sums_nil : sums_to [] (Finite 0)
| sums_snoc (vals : list real) (a x b : real) :
    sums_to vals a -> add a x = Some b -> sums_to (vals ++ [x]) b.

(** The least and the greatest of a list of values. *)
Definition least (vals : list real) (a : real) : Prop :=
  In a vals /\ forall x, In x vals -> leb a x = true.

Definition greatest (vals : list real) (a : real) : Prop :=
  In a vals /\ forall x, In x vals -> leb x a = true.

(** [named_statistic name vals a]: [a] is the statistic the request calls
    [name], taken over the values [vals] in binary64. *)
Definition named_statistic (name : string) (vals : list real) (a : real)
  : Prop :=
  (name = "sum" /\ vals <> [] /\ sums_to vals a) \/
  (name = "average" /\ vals <> [] /\
   exists s, sums_to vals s /\ a = div_count s (List.length vals)) \/
  (name = "min" /\ least vals a) \/
  (name = "max" /\ greatest vals a).

(** [n] is the integer nearest to [u], the even one of the two when [u]
    lies halfway. *)
Definition nearest_even (u : Q) (n : Z) : Prop :=
  (Qabs (inject_Z n - u) <= 1 # 2)%Q /\
  ((Qabs (inject_Z n - u) == 1 # 2)%Q -> Z.even n = true).

(** [v] is [a] rounded to 2 decimal places: the binary64 number nearest to
    the two-decimal number nearest to [a]; an infinity stays as it is. *)
Definition rounded_2 (a v : real) : Prop :=
  match a with
  | Finite m => exists n, nearest_even (exact m * 100) n /\ v = of_Q (n # 100)
  | Infinity s => v = Infinity s
  end.

(** "exactly one of min, max, sum, average" *)
Definition enumerated (s : string) : Prop :=
  s = "min" \/ s = "max" \/ s = "sum" \/ s = "average".

(** The window passes both range checks. *)
Definition valid_window (s e : datetime) : Prop :=
  instant s <= instant e /\ instant e - instant s <= days_31.

(** A binary64 number: rounding leaves it as it is, and it is below
    2^1024 in magnitude. *)
Definition binary64 (m : Z) : Prop :=
  round_units (inject_Z m) = m /\ Z.abs m < 2 ^ 2098.

(** The entries the loop appends for the group of key [k] among [rows]:
    one, unless the aggregate is NULL. *)
Definition entries_of (statistic : string) (f : aggregate)
    (rows : list MetricDB) (k : string) : list QueryResult :=
  match eval_aggregate f (map value (group k rows)) with
  | Some a =>
      [ {| qr_metric_type := k;
           qr_statistic := statistic;
           qr_value := round a 2 |} ]
  | None => []
  end.

(** The timestamp [create_metric] resolves for a body: the given one, the
    parse-time default when the field is left out, the handling-time
    default when it is [null]. *)
Definition resolved (parsed_at handled_at : Z) (ts : field datetime)
  : datetime :=
  match ts with
  | Given d => d
  | Missing => {| wall := parsed_at; tzinfo := Some 0 |}
  | _ => {| wall := handled_at; tzinfo := Some 0 |}
  end.

(** Ascending byte order on keys. *)
Definition key_lt (a b : string) : Prop := String.compare a b = Lt.

(** A small table: two temperature readings and one humidity reading of
    sensor [s1], stored at clock readings 1000, 1001 and 1002. *)
Definition reading (i : Z) (sid mt : string) (v : Q) (t : Z) : MetricDB :=
  {| id := i; sensor_id := sid; metric_type := mt; value := Some (of_Q v);
     timestamp := {| wall := t; tzinfo := None |} |}.

Definition sample_db : Session :=
  [ reading 1 "s1" "temp" 20 1000;
    reading 2 "s1" "temp" 30 1001;
    reading 3 "s1" "humidity" 50 1002 ].

(** A clock reading of the year 1917 and one hour, for examples. *)
Definition noon : Z := 700000 * 86400000000.
Definition hour : Z := 3600000000.

End Spec.
Import Spec.

(** ** The application: calls in sequence *)

Module App.

(** A call on the application, one constructor per route, with the clock
    readings taken while it is served. *)
Inductive request : Type :=
| POST_metrics (parsed_at handled_at : Z) (b : Body)
| GET_metrics_query (clock : Z) (p : Params).

Inductive reply : Type :=
| metric_reply (r : response MetricDB)
| query_reply (r : response (list QueryResult)).

(** One call: the route's handler runs on the session, which it may
    extend. *)
Definition handle (req : request) (db : Session) : reply * Session :=
  match req with
  | POST_metrics parsed_at handled_at b =>
      let '(r, db') := post_metrics parsed_at handled_at b db in
      (metric_reply r, db')
  | GET_metrics_query clock p =>
      let '(r, db') := get_metrics_query clock p db in
      (query_reply r, db')
  end.

(** A client issuing calls one after the other. *)
Fixpoint run (reqs : list request) (db : Session) : list reply * Session :=
  match reqs with
  | [] => ([], db)
  | req :: reqs' =>
      let '(r, db1) := handle req db in
      let '(rs, db2) := run reqs' db1 in
      (r :: rs, db2)
  end.

(** The calls that store a row: a POST whose body carries the three
    required fields and no malformed timestamp. *)
Definition stores (req : request) : bool :=
  match req with
  | POST_metrics _ _ b =>
      match b_sensor_id b, b_metric_type b, b_value b, b_timestamp b with
      | Given _, Given _, Given _, Invalid => false
      | Given _, Given _, Given _, _ => true
      | _, _, _, _ => false
      end
  | GET_metrics_query _ _ => false
  end.

(** The keys of the table are 1, 2, ..., in insertion order. *)
Definition consecutive_ids (db : Session) : Prop :=
  map id db = map Z.of_nat (seq 1 (List.length db)).


End App.
Import App.

(** ** Two tests of [test_main.py], with the clock readings they take *)

Module Tests.

Definition json (sid mt : string) (v : Q) (ts : field datetime) : Body :=
  {| b_sensor_id := Given sid; b_metric_type := Given mt;
     b_value := Given (Decimal v); b_timestamp := ts |}.

(** [datetime.now(timezone.utc) - td] at clock reading [t]. *)
Definition ago (t : Z) (td : timedelta) : option datetime :=
  sub_timedelta (now_utc t) td.

(** [test_query_date_range], on the empty table the fixture sets up.
    [t0] and [t4] are the readings of the test's own two calls of
    [datetime.now], the others those of the four requests.  [None]: the
    test itself raises. *)
Definition test_query_date_range
    (t0 p1 h1 p2 h2 t3 t4 t5 : Z) : option (list reply) :=
  match ago t0 (timedelta_days 2), ago t4 (timedelta_days 3) with
  | Some old_date, Some start_date =>
      Some
        (fst (run
                [ POST_metrics p1 h1
                    (json "s3" "pressure" 1000 (Given old_date));
                  POST_metrics p2 h2 (json "s3" "pressure" 1010 Missing);
                  GET_metrics_query t3
                    {| p_sensor_ids := None; p_metrics := Some ["pressure"];
                       p_statistic := Some "average";
                       p_start_date := None; p_end_date := None |};
                  GET_metrics_query t5
                    {| p_sensor_ids := None; p_metrics := Some ["pressure"];
                       p_statistic := Some "average";
                       p_start_date := Some start_date;
                       p_end_date := None |} ]
                []))
  | _, _ => None
  end.

(** [timedelta(days=1, hours=12)] *)
Definition timedelta_1d12h : timedelta :=
  timedelta_days 1 + 12 * 3600 * 1000000.

(** [test_query_implicit_defaults], on the empty table.  [t0], [t2], [t4]
    and [t6] are the readings of the test's own calls of [datetime.now]. *)
Definition test_query_implicit_defaults
    (t0 p1 h1 t2 t3 t4 p5 h5 t6 t7 : Z) : option (list reply) :=
  match ago t0 (timedelta_days 2), ago t2 (timedelta_days 3),
        ago t4 timedelta_1d12h, ago t6 (timedelta_days 1) with
  | Some t_minus_2, Some start, Some t_minus_1_5, Some end_ =>
      Some
        (fst (run
                [ POST_metrics p1 h1
                    (json "s_implicit" "val" 100 (Given t_minus_2));
                  GET_metrics_query t3
                    {| p_sensor_ids := None; p_metrics := Some ["val"];
                       p_statistic := Some "average";
                       p_start_date := Some start; p_end_date := None |};
                  POST_metrics p5 h5
                    (json "s_implicit_2" "val2" 50 (Given t_minus_1_5));
                  GET_metrics_query t7
                    {| p_sensor_ids := None; p_metrics := Some ["val2"];
                       p_statistic := Some "average";
                       p_start_date := None; p_end_date := Some end_ |} ]
                []))
  | _, _, _, _ => None
  end.

End Tests.
Import Tests.

(** ** Rounding *)

Section Rounding.

Lemma round_half_even_comp (x y : Q) :
  (x == y)%Q -> round_half_even x = round_half_even y.
Proof.
  intros E. unfold round_half_even.
  rewrite (Qfloor_comp _ _ E).
  assert (Qcompare (x - inject_Z (Qfloor y)) (1 # 2) =
          Qcompare (y - inject_Z (Qfloor y)) (1 # 2)) as ->; [|reflexivity].
  apply Qcompare_comp; [now rewrite E | reflexivity].
Qed.

Lemma round_half_even_cases (x : Q) :
  (round_half_even x = Qfloor x /\ (x - inject_Z (Qfloor x) <= 1 # 2)%Q) \/
  (round_half_even x = Qfloor x + 1 /\ (1 # 2 <= x - inject_Z (Qfloor x))%Q).
Proof.
  unfold round_half_even.
  destruct (Qcompare_spec (x - inject_Z (Qfloor x)) (1 # 2)) as [E|L|G].
  - destruct (Z.even (Qfloor x)); [left|right]; split; try reflexivity; lra.
  - left. split; [reflexivity|lra].
  - right. split; [reflexivity|lra].
Qed.

Lemma round_half_even_near (x : Q) :
  (- (1 # 2) <= inject_Z (round_half_even x) - x <= 1 # 2)%Q.
Proof.
  pose proof (Qfloor_le x) as Hlo. pose proof (Qlt_floor x) as Hhi.
  rewrite inject_Z_plus in Hhi.
  destruct (round_half_even_cases x) as [[-> H]|[-> H]];
    rewrite ?inject_Z_plus; change (inject_Z 1) with 1%Q in *; lra.
Qed.

Lemma round_half_even_Z (n : Z) : round_half_even (inject_Z n) = n.
Proof.
  unfold round_half_even. rewrite Qfloor_Z.
  destruct (Qcompare_spec (inject_Z n - inject_Z n) (1 # 2)) as [E|L|G];
    [exfalso; lra|reflexivity|exfalso; lra].
Qed.

(** [round_half_even] is the one integer that [nearest_even] describes. *)
Lemma nearest_even_round (u : Q) : nearest_even u (round_half_even u).
Proof.
  pose proof (Qfloor_le u) as Hlo. pose proof (Qlt_floor u) as Hhi.
  rewrite inject_Z_plus in Hhi. change (inject_Z 1) with 1%Q in Hhi.
  unfold nearest_even, round_half_even.
  destruct (Qcompare_spec (u - inject_Z (Qfloor u)) (1 # 2)) as [E|L|G].
  - destruct (Z.even (Qfloor u)) eqn:Hev.
    + split; [apply Qabs_Qle_condition; lra|auto].
    + split.
      * apply Qabs_Qle_condition. rewrite inject_Z_plus.
        change (inject_Z 1) with 1%Q. lra.
      * intros _. rewrite Z.even_add, Hev. reflexivity.
  - split; [apply Qabs_Qle_condition; lra|].
    intros Habs. exfalso.
    rewrite Qabs_neg in Habs by lra. lra.
  - rewrite inject_Z_plus. change (inject_Z 1) with 1%Q.
    split; [apply Qabs_Qle_condition; lra|].
    intros Habs. exfalso.
    rewrite Qabs_pos in Habs by lra. lra.
Qed.

Lemma nearest_even_unique (u : Q) (n : Z) :
  nearest_even u n -> n = round_half_even u.
Proof.
  intros [Hnear Htie].
  pose proof (Qfloor_le u) as Hlo. pose proof (Qlt_floor u) as Hhi.
  rewrite inject_Z_plus in Hhi. change (inject_Z 1) with 1%Q in Hhi.
  apply Qabs_Qle_condition in Hnear.
  assert (Qfloor u <= n <= Qfloor u + 1) as Hn.
  { split.
    - apply Z.lt_pred_le. rewrite Zlt_Qlt. unfold Z.pred.
      rewrite inject_Z_plus. change (inject_Z (-1)) with (- (1))%Q. lra.
    - apply Z.lt_succ_r. rewrite Zlt_Qlt. unfold Z.succ.
      rewrite !inject_Z_plus. change (inject_Z 1) with 1%Q. lra. }
  assert (n = Qfloor u \/ n = Qfloor u + 1) as [->| ->] by lia.
  - unfold round_half_even.
    destruct (Qcompare_spec (u - inject_Z (Qfloor u)) (1 # 2)) as [E|L|G].
    + destruct (Z.even (Qfloor u)) eqn:Hev; [reflexivity|].
      assert (false = true) as Heven; [|discriminate].
      apply Htie. rewrite Qabs_neg by lra. lra.
    + reflexivity.
    + exfalso. lra.
  - rewrite inject_Z_plus in Hnear, Htie.
    change (inject_Z 1) with 1%Q in Hnear, Htie.
    unfold round_half_even.
    destruct (Qcompare_spec (u - inject_Z (Qfloor u)) (1 # 2)) as [E|L|G].
    + destruct (Z.even (Qfloor u)) eqn:Hev; [|reflexivity].
      assert (Z.even (Qfloor u + 1) = true) as Hodd.
      { apply Htie. rewrite Qabs_pos by lra. lra. }
      rewrite Z.even_add, Hev in Hodd. discriminate.
    + exfalso. lra.
    + reflexivity.
Qed.

End Rounding.

(** ** binary64 rounding is a projection *)

Section Binary64.

Lemma pow2_pos (k : Z) : 0 <= k -> 0 < 2 ^ k.
Proof. intros Hk. apply Z.pow_pos_nonneg; lia. Qed.

Lemma round_units_comp (t t' : Q) :
  (t == t')%Q -> round_units t = round_units t'.
Proof.
  intros E. unfold round_units.
  rewrite (Qfloor_comp (Qabs t) (Qabs t')) by now rewrite E.
  f_equal. apply round_half_even_comp. now rewrite E.
Qed.

Lemma inject_Z_pow2_pos (k : Z) : 0 <= k -> (0 < inject_Z (2 ^ k))%Q.
Proof.
  intros Hk. change 0%Q with (inject_Z 0). rewrite <- Zlt_Qlt.
  now apply pow2_pos.
Qed.

(** An exact multiple of the spacing is left alone. *)
Lemma round_multiple (n k : Z) :
  0 <= k ->
  round_half_even (inject_Z (n * 2 ^ k) / inject_Z (2 ^ k)) * 2 ^ k = n * 2 ^ k.
Proof.
  intros Hk. pose proof (inject_Z_pow2_pos k Hk) as Hp.
  rewrite (round_half_even_comp _ (inject_Z n)).
  - now rewrite round_half_even_Z.
  - rewrite inject_Z_mult. field. lra.
Qed.

(** The significand of a rounded number has at most 53 bits, the
    power of two 2^53 included. *)
Lemma significand_bound (t : Q) :
  let k := Z.max 0 (Z.log2 (Qfloor (Qabs t)) - 52) in
  Z.abs (round_half_even (t / inject_Z (2 ^ k))) <= 2 ^ 53.
Proof.
  intros k.
  assert (0 <= k) as Hk by (unfold k; lia).
  pose proof (inject_Z_pow2_pos k Hk) as Hp.
  set (a := Qfloor (Qabs t)).
  assert (0 <= a) as Ha.
  { unfold a. rewrite <- (Qfloor_Z 0). apply Qfloor_resp_le, Qabs_nonneg. }
  assert (a + 1 <= 2 ^ 53 * 2 ^ k) as Hlog.
  { rewrite <- Z.pow_add_r by lia.
    destruct (Z.eq_dec a 0) as [->|Hne].
    - apply (Z.le_trans _ (2 ^ 0)); [simpl; lia|].
      apply Z.pow_le_mono_r; lia.
    - destruct (Z.log2_spec a ltac:(lia)) as [_ Hhi].
      apply (Z.le_trans _ (2 ^ Z.succ (Z.log2 a))); [lia|].
      apply Z.pow_le_mono_r; [lia|]. unfold k. fold a. lia. }
  assert (Qabs t < inject_Z (2 ^ 53) * inject_Z (2 ^ k))%Q as Hlt.
  { rewrite <- inject_Z_mult.
    apply (Qlt_le_trans _ (inject_Z (a + 1))); [apply Qlt_floor|].
    now rewrite <- Zle_Qle. }
  set (u := (t / inject_Z (2 ^ k))%Q).
  assert (Qabs u < inject_Z (2 ^ 53))%Q as Hu.
  { unfold u, Qdiv. rewrite Qabs_Qmult.
    rewrite (Qabs_pos (/ inject_Z (2 ^ k))).
    - apply Qlt_shift_div_r; [exact Hp|exact Hlt].
    - apply Qlt_le_weak, Qinv_lt_0_compat, Hp. }
  pose proof (round_half_even_near u) as Hnear.
  assert (- inject_Z (2 ^ 53) < u < inject_Z (2 ^ 53))%Q as [Hu1 Hu2].
  { revert Hu. apply Qabs_case; intros; lra. }
  apply Z.abs_le. split.
  - apply Z.lt_pred_le. rewrite Zlt_Qlt. unfold Z.pred.
    rewrite inject_Z_plus, inject_Z_opp.
    change (inject_Z (-1)) with (- (1))%Q. lra.
  - apply Z.lt_succ_r. rewrite Zlt_Qlt. unfold Z.succ.
    rewrite inject_Z_plus. change (inject_Z 1) with 1%Q. lra.
Qed.

(** Rounding a rounded number gives it back. *)
Lemma round_units_idempotent (t : Q) :
  round_units (inject_Z (round_units t)) = round_units t.
Proof.
  pose proof (significand_bound t) as Hm. cbv zeta in Hm.
  unfold round_units at 2 3.
  set (k := Z.max 0 (Z.log2 (Qfloor (Qabs t)) - 52)) in *.
  set (m := round_half_even (t / inject_Z (2 ^ k))) in *.
  assert (0 <= k) as Hk by (unfold k; lia).
  pose proof (pow2_pos k Hk) as Hp.
  unfold round_units.
  assert (Qfloor (Qabs (inject_Z (m * 2 ^ k))) = Z.abs m * 2 ^ k) as ->.
  { rewrite (Qfloor_comp _ (inject_Z (Z.abs (m * 2 ^ k)))).
    - rewrite Qfloor_Z, Z.abs_mul, (Z.abs_eq (2 ^ k)) by lia. reflexivity.
    - unfold Qabs, inject_Z. reflexivity. }
  destruct (Z.eq_dec m 0) as [Hz|Hnz].
  { rewrite Hz. simpl. reflexivity. }
  assert (0 < Z.abs m) as Hapos by lia.
  rewrite Z.log2_mul_pow2 by lia.
  set (k' := Z.max 0 (k + Z.log2 (Z.abs m) - 52)).
  assert (0 <= k') as Hk' by (unfold k'; lia).
  assert (exists n, m * 2 ^ k = n * 2 ^ k') as [n Hn].
  { destruct (Z_le_gt_dec k' k) as [Hle|Hgt].
    - exists (m * 2 ^ (k - k')).
      rewrite <- Z.mul_assoc, <- Z.pow_add_r by lia. do 2 f_equal. lia.
    - assert (53 <= Z.log2 (Z.abs m)) as Hlog by (unfold k' in Hgt; lia).
      apply Z.log2_le_pow2 in Hlog; [|lia].
      assert (Z.abs m = 2 ^ 53) as Habs by lia.
      assert (k' = k + 1) as ->.
      { unfold k'. rewrite Habs, Z.log2_pow2 by lia. lia. }
      assert (2 ^ 53 * 2 ^ k = 2 ^ 52 * 2 ^ (k + 1)) as Hpow.
      { rewrite <- !Z.pow_add_r by lia. f_equal. lia. }
      destruct (Z.abs_spec m) as [[_ E]|[_ E]].
      + exists (2 ^ 52). rewrite <- E, Habs. exact Hpow.
      + exists (- 2 ^ 52). rewrite Z.mul_opp_l, <- Hpow, <- Habs, E. ring. }
  rewrite Hn. now apply round_multiple.
Qed.

Lemma pack_finite (m : Z) : Z.abs m < 2 ^ 2098 -> pack m = Finite m.
Proof.
  intros H. unfold pack.
  destruct (Z.leb_spec (2 ^ 2098) (Z.abs m)); [lia|reflexivity].
Qed.

Lemma pack_Finite_inv (t m : Z) :
  pack t = Finite m -> t = m /\ Z.abs m < 2 ^ 2098.
Proof.
  unfold pack. destruct (Z.leb_spec (2 ^ 2098) (Z.abs t)); [discriminate|].
  intros [= <-]. split; [reflexivity|assumption].
Qed.

(** What the parser reads, and what an operation returns, is a binary64
    number. *)
Lemma pack_round_binary64 (t : Q) (m : Z) :
  pack (round_units t) = Finite m -> binary64 m.
Proof.
  intros H. apply pack_Finite_inv in H as [<- Hlt].
  split; [apply round_units_idempotent|exact Hlt].
Qed.

Lemma of_Q_binary64 (q : Q) (m : Z) : of_Q q = Finite m -> binary64 m.
Proof. apply pack_round_binary64. Qed.

Lemma of_Q_comp (x y : Q) : (x == y)%Q -> of_Q x = of_Q y.
Proof.
  intros E. unfold of_Q. f_equal. apply round_units_comp. now rewrite E.
Qed.

Lemma add_zero (m : Z) :
  binary64 m -> add (Finite 0) (Finite m) = Some (Finite m).
Proof.
  intros [Hr Hlt]. unfold add. simpl Z.add. rewrite Hr.
  now rewrite pack_finite.
Qed.

Lemma div_count_one (m : Z) : binary64 m -> div_count (Finite m) 1 = Finite m.
Proof.
  intros [Hr Hlt]. unfold div_count.
  rewrite (round_units_comp _ (inject_Z m)).
  - rewrite Hr. now apply pack_finite.
  - change (inject_Z (Z.of_nat 1)) with 1%Q. field.
Qed.

End Binary64.

Section RoundFinite.

Lemma Qfloor_abs_inject (m : Z) : Qfloor (Qabs (inject_Z m)) = Z.abs m.
Proof.
  rewrite (Qfloor_comp _ (inject_Z (Z.abs m))); [apply Qfloor_Z|].
  unfold Qabs, inject_Z. reflexivity.
Qed.

(** A rounded number is within twice the magnitude of what was rounded. *)
Lemma round_units_bound (t : Q) :
  Z.abs (round_units t) <= 2 * Qfloor (Qabs t) + 2.
Proof.
  unfold round_units.
  set (a := Qfloor (Qabs t)).
  set (k := Z.max 0 (Z.log2 a - 52)).
  assert (0 <= k) as Hk by (unfold k; lia).
  pose proof (pow2_pos k Hk) as Hp.
  pose proof (inject_Z_pow2_pos k Hk) as Hq.
  assert (0 <= a) as Ha.
  { unfold a. rewrite <- (Qfloor_Z 0). apply Qfloor_resp_le, Qabs_nonneg. }
  assert (2 ^ k <= a + 1) as Hspacing.
  { destruct (Z.eq_dec a 0) as [E|Hne].
    - unfold k. rewrite E. simpl. lia.
    - destruct (Z.log2_spec a ltac:(lia)) as [Hlo _].
      apply (Z.le_trans _ (2 ^ Z.log2 a)); [|lia].
      apply Z.pow_le_mono_r; [lia|]. pose proof (Z.log2_nonneg a). lia. }
  set (u := (t / inject_Z (2 ^ k))%Q).
  set (m := round_half_even u).
  pose proof (round_half_even_near u) as [Hn1 Hn2]. fold m in Hn1, Hn2.
  assert (t == u * inject_Z (2 ^ k))%Q as Ht by (unfold u; field; lra).
  pose proof (Qlt_floor (Qabs t)) as Hfl. fold a in Hfl.
  rewrite inject_Z_plus in Hfl. change (inject_Z 1) with 1%Q in Hfl.
  assert (inject_Z (2 ^ k) <= inject_Z a + 1)%Q as Hsp.
  { change 1%Q with (inject_Z 1). rewrite <- inject_Z_plus, <- Zle_Qle.
    exact Hspacing. }
  assert ((inject_Z m - u) * inject_Z (2 ^ k) <= (1 # 2) * inject_Z (2 ^ k))%Q
    as Hd2 by (apply Qmult_le_compat_r; lra).
  assert (- (1 # 2) * inject_Z (2 ^ k) <= (inject_Z m - u) * inject_Z (2 ^ k))%Q
    as Hd1 by (apply Qmult_le_compat_r; lra).
  assert (inject_Z (m * 2 ^ k) ==
          (inject_Z m - u) * inject_Z (2 ^ k) + t)%Q as HT.
  { rewrite inject_Z_mult, Ht. ring. }
  assert (- (inject_Z a + 1) < t < inject_Z a + 1)%Q as [Ht1 Ht2].
  { revert Hfl. apply Qabs_case; intros; lra. }
  apply Z.abs_le. split.
  - rewrite Zle_Qle, inject_Z_opp, HT, inject_Z_plus, inject_Z_mult.
    change (inject_Z 2) with 2%Q. lra.
  - rewrite Zle_Qle, HT, inject_Z_plus, inject_Z_mult.
    change (inject_Z 2) with 2%Q. lra.
Qed.

Lemma unit_pos : 0 < unit.
Proof. unfold unit. apply pow2_pos. lia. Qed.

Lemma inject_unit_pos : (0 < inject_Z unit)%Q.
Proof. change 0%Q with (inject_Z 0). rewrite <- Zlt_Qlt. apply unit_pos. Qed.

(** From 2^52 on, a binary64 number is an integer. *)
Lemma binary64_integer (m : Z) :
  binary64 m -> 2 ^ 1126 <= Z.abs m -> exists x, m = x * unit.
Proof.
  intros [Hr _] Hbig. unfold round_units in Hr.
  rewrite Qfloor_abs_inject in Hr.
  set (k := Z.max 0 (Z.log2 (Z.abs m) - 52)) in Hr.
  assert (1074 <= k) as Hk.
  { assert (1126 <= Z.log2 (Z.abs m)).
    { apply Z.log2_le_pow2; [|exact Hbig].
      apply (Z.lt_le_trans _ (2 ^ 1126)); [apply pow2_pos; lia|exact Hbig]. }
    unfold k. lia. }
  exists (round_half_even (inject_Z m / inject_Z (2 ^ k)) * 2 ^ (k - 1074)).
  rewrite <- Hr at 1. unfold unit.
  rewrite <- Z.mul_assoc, <- Z.pow_add_r by lia. do 2 f_equal. lia.
Qed.

(** [round(x, 2)] of a finite number is finite. *)
Lemma round_2_finite (m : Z) :
  binary64 m -> exists m', round (Finite m) 2 = Finite m'.
Proof.
  intros Hb. unfold round.
  change (inject_Z (10 ^ Z.of_nat 2)) with 100%Q.
  pose proof inject_unit_pos as Hu.
  destruct (Z_le_gt_dec (2 ^ 1126) (Z.abs m)) as [Hbig|Hsmall].
  - destruct (binary64_integer m Hb Hbig) as (x & Hx).
    exists m. destruct Hb as [Hr Hlt].
    assert (exact m == inject_Z x)%Q as Hex.
    { unfold exact. rewrite Hx, inject_Z_mult. field. lra. }
    rewrite (round_half_even_comp _ (inject_Z (x * 100)))
      by (rewrite Hex, inject_Z_mult; reflexivity).
    rewrite round_half_even_Z.
    unfold of_Q. rewrite (round_units_comp _ (inject_Z m)).
    + rewrite Hr. now apply pack_finite.
    + rewrite Hx, !inject_Z_mult. change (inject_Z 100) with 100%Q. field.
  - set (n := round_half_even (exact m * 100)).
    eexists. unfold of_Q. apply pack_finite.
    pose proof (round_units_bound (inject_Z n / 100 * inject_Z unit)) as Hbound.
    set (t := (inject_Z n / 100 * inject_Z unit)%Q) in *.
    assert (Qfloor (Qabs t) <= 2 ^ 1126) as Hfl.
    { assert (2 ^ 1126 = 2 ^ 52 * unit) as Hpow.
      { unfold unit. rewrite <- Z.pow_add_r by lia. reflexivity. }
      assert (- (inject_Z (2 ^ 52) * inject_Z unit) < inject_Z m <
              inject_Z (2 ^ 52) * inject_Z unit)%Q as [Hm1 Hm2].
      { rewrite <- inject_Z_mult, <- Hpow, <- inject_Z_opp, <- !Zlt_Qlt. lia. }
      assert (- inject_Z (2 ^ 52) < exact m < inject_Z (2 ^ 52))%Q
        as [He1 He2].
      { unfold exact. split.
        - apply Qlt_shift_div_l; [exact Hu|lra].
        - apply Qlt_shift_div_r; [exact Hu|lra]. }
      pose proof (round_half_even_near (exact m * 100)) as [Hn1 Hn2].
      fold n in Hn1, Hn2.
      assert (- (100 * 2 ^ 52) <= n <= 100 * 2 ^ 52) as [Hz1 Hz2].
      { split.
        - apply Z.lt_pred_le. rewrite Zlt_Qlt. unfold Z.pred.
          rewrite inject_Z_plus, inject_Z_opp, inject_Z_mult.
          change (inject_Z (-1)) with (- (1))%Q.
          change (inject_Z 100) with 100%Q. lra.
        - apply Z.lt_succ_r. rewrite Zlt_Qlt. unfold Z.succ.
          rewrite inject_Z_plus, inject_Z_mult.
          change (inject_Z 1) with 1%Q.
          change (inject_Z 100) with 100%Q. lra. }
      assert (Qabs t <= inject_Z (2 ^ 1126))%Q as Habs.
      { rewrite Hpow, inject_Z_mult. apply Qabs_Qle_condition.
        rewrite Zle_Qle, inject_Z_opp, inject_Z_mult in Hz1.
        rewrite Zle_Qle, inject_Z_mult in Hz2.
        change (inject_Z 100) with 100%Q in Hz1, Hz2.
        assert (- inject_Z (2 ^ 52) <= inject_Z n / 100 <= inject_Z (2 ^ 52))%Q
          as [Hq1 Hq2].
        { split.
          - apply Qle_shift_div_l; lra.
          - apply Qle_shift_div_r; lra. }
        unfold t. split.
        - setoid_replace (- (inject_Z (2 ^ 52) * inject_Z unit))%Q
            with (- inject_Z (2 ^ 52) * inject_Z unit)%Q by ring.
          apply Qmult_le_compat_r; lra.
        - apply Qmult_le_compat_r; lra. }
      rewrite <- (Qfloor_Z (2 ^ 1126)). now apply Qfloor_resp_le. }
    assert (2 * 2 ^ 1126 + 2 < 2 ^ 2098) by (vm_compute; reflexivity).
    lia.
Qed.

End RoundFinite.

(** ** Group keys *)

Section Keys.

Lemma ascii_lt_trans (a b c : ascii) :
  Ascii.compare a b = Lt -> Ascii.compare b c = Lt -> Ascii.compare a c = Lt.
Proof.
  unfold Ascii.compare. rewrite !N.compare_lt_iff. apply N.lt_trans.
Qed.

Lemma key_lt_trans (a b c : string) : key_lt a b -> key_lt b c -> key_lt a c.
Proof.
  unfold key_lt. revert b c.
  induction a as [|x a IH]; intros [|y b] [|z c]; simpl;
    try discriminate; try reflexivity.
  destruct (Ascii.compare x y) eqn:Exy; try discriminate;
    destruct (Ascii.compare y z) eqn:Eyz; try discriminate; intros H1 H2.
  - apply Ascii.compare_eq_iff in Exy, Eyz. subst y z.
    assert (Ascii.compare x x = Eq) as ->.
    { unfold Ascii.compare. apply N.compare_refl. }
    now apply (IH b c).
  - apply Ascii.compare_eq_iff in Exy. subst y. now rewrite Eyz.
  - apply Ascii.compare_eq_iff in Eyz. subst z. now rewrite Exy.
  - now rewrite (ascii_lt_trans x y z).
Qed.

Lemma key_lt_irrefl (a : string) : ~ key_lt a a.
Proof.
  unfold key_lt. intros H.
  pose proof (String.compare_antisym a a) as Ha. rewrite H in Ha.
  discriminate.
Qed.

Lemma compare_Gt_lt (a b : string) : String.compare a b = Gt -> key_lt b a.
Proof.
  unfold key_lt. intros H. rewrite String.compare_antisym, H. reflexivity.
Qed.

Lemma insert_key_In (k x : string) (keys : list string) :
  In k (insert_key x keys) <-> k = x \/ In k keys.
Proof.
  induction keys as [|y keys IH]; simpl; [intuition|].
  destruct (String.compare x y) eqn:E; simpl.
  - apply String.compare_eq_iff in E. subst y. intuition.
  - intuition.
  - rewrite IH. intuition.
Qed.

Lemma group_keys_In (k : string) (l : list string) :
  In k (group_keys l) <-> In k l.
Proof.
  induction l as [|x l IH]; simpl; [tauto|].
  rewrite insert_key_In, IH. intuition.
Qed.

Lemma insert_key_sorted (x : string) (keys : list string) :
  StronglySorted key_lt keys -> StronglySorted key_lt (insert_key x keys).
Proof.
  induction 1 as [|y keys Hs IH Hall]; simpl.
  - repeat constructor.
  - destruct (String.compare x y) eqn:E.
    + now constructor.
    + constructor; [now constructor|].
      constructor; [exact E|].
      rewrite Forall_forall in *. intros z Hz.
      apply (key_lt_trans x y z E). now apply Hall.
    + constructor; [exact IH|].
      rewrite Forall_forall in *. intros z Hz.
      apply insert_key_In in Hz as [->|Hz]; [now apply compare_Gt_lt|].
      now apply Hall.
Qed.

Lemma group_keys_sorted (l : list string) : StronglySorted key_lt (group_keys l).
Proof.
  induction l as [|x l IH]; simpl; [constructor|].
  now apply insert_key_sorted.
Qed.

Lemma sorted_NoDup (keys : list string) :
  StronglySorted key_lt keys -> NoDup keys.
Proof.
  induction 1 as [|y keys Hs IH Hall]; constructor; [|exact IH].
  intros Hin. rewrite Forall_forall in Hall.
  apply (key_lt_irrefl y). now apply Hall.
Qed.

Lemma group_keys_NoDup (l : list string) : NoDup (group_keys l).
Proof. apply sorted_NoDup, group_keys_sorted. Qed.

End Keys.

(** ** The aggregates *)

Section Aggregates.

Lemma leb_refl (x : real) : leb x x = true.
Proof. destruct x as [m|[|]]; simpl; [apply Z.leb_refl|reflexivity..]. Qed.

Lemma leb_total (x y : real) : leb x y = false -> leb y x = true.
Proof.
  destruct x as [a|[|]], y as [b|[|]]; simpl; try reflexivity;
    try discriminate.
  rewrite Z.leb_gt, Z.leb_le. lia.
Qed.

Lemma leb_trans (x y z : real) :
  leb x y = true -> leb y z = true -> leb x z = true.
Proof.
  destruct x as [a|[|]], y as [b|[|]], z as [c|[|]]; simpl;
    try reflexivity; try discriminate.
  rewrite !Z.leb_le. lia.
Qed.

Lemma leb_antisym (x y : real) :
  leb x y = true -> leb y x = true -> x = y.
Proof.
  destruct x as [a|[|]], y as [b|[|]]; simpl; try reflexivity;
    try discriminate.
  rewrite !Z.leb_le. intros. f_equal. lia.
Qed.

Lemma fold_min_least (vs : list real) (v : real) :
  least (v :: vs) (fold_left (fun m x => if leb x m then x else m) vs v).
Proof.
  revert v. induction vs as [|y vs IH]; intros v.
  - split; [now left|]. intros x [<-|[]]. apply leb_refl.
  - simpl fold_left. destruct (IH (if leb y v then y else v)) as [Hin Hle].
    split.
    + destruct Hin as [Hin|Hin]; [|simpl; auto].
      rewrite <- Hin. destruct (leb y v); simpl; auto.
    + intros x [<-|[<-|Hx]].
      * eapply leb_trans; [apply Hle; now left|].
        destruct (leb y v) eqn:E; [exact E|apply leb_refl].
      * eapply leb_trans; [apply Hle; now left|].
        destruct (leb y v) eqn:E; [apply leb_refl|now apply leb_total].
      * apply Hle. now right.
Qed.

Lemma fold_max_greatest (vs : list real) (v : real) :
  greatest (v :: vs) (fold_left (fun m x => if leb m x then x else m) vs v).
Proof.
  revert v. induction vs as [|y vs IH]; intros v.
  - split; [now left|]. intros x [<-|[]]. apply leb_refl.
  - simpl fold_left. destruct (IH (if leb v y then y else v)) as [Hin Hle].
    split.
    + destruct Hin as [Hin|Hin]; [|simpl; auto].
      rewrite <- Hin. destruct (leb v y); simpl; auto.
    + intros x [<-|[<-|Hx]].
      * eapply leb_trans; [|apply Hle; now left].
        destruct (leb v y) eqn:E; [exact E|apply leb_refl].
      * eapply leb_trans; [|apply Hle; now left].
        destruct (leb v y) eqn:E; [apply leb_refl|now apply leb_total].
      * apply Hle. now right.
Qed.

Lemma least_unique (vals : list real) (a b : real) :
  least vals a -> least vals b -> a = b.
Proof. intros [Ha La] [Hb Lb]. apply leb_antisym; auto. Qed.

Lemma greatest_unique (vals : list real) (a b : real) :
  greatest vals a -> greatest vals b -> a = b.
Proof. intros [Ha La] [Hb Lb]. apply leb_antisym; auto. Qed.

(** The running sum of the store is the sum one value after the other. *)
Lemma fold_sum_snoc (vals : list real) (x : real) (acc : option real) :
  fold_left sum_step (vals ++ [x]) acc =
  sum_step (fold_left sum_step vals acc) x.
Proof. now rewrite fold_left_app. Qed.

Lemma running_sum_sums_to (vals : list real) (a : real) :
  running_sum vals = Some a <-> sums_to vals a.
Proof.
  unfold running_sum. revert a.
  induction vals as [|x vals IH] using rev_ind; intros a.
  - simpl. split.
    + intros [= <-]. constructor.
    + intros H. inversion H as [|l a0 x0 b Hs Hadd Hl]; [reflexivity|].
      destruct l; discriminate.
  - rewrite fold_sum_snoc. split.
    + destruct (fold_left sum_step vals (Some (Finite 0))) as [s|] eqn:E;
        [|discriminate].
      simpl. intros Hadd. apply (sums_snoc vals s x a); [|exact Hadd].
      now apply IH.
    + intros H. inversion H as [|l a0 x0 b Hs Hadd Hl].
      { destruct vals; discriminate. }
      apply app_inj_tail in Hl as [-> ->].
      apply IH in Hs. rewrite Hs. exact Hadd.
Qed.

Lemma sums_to_unique (vals : list real) (a b : real) :
  sums_to vals a -> sums_to vals b -> a = b.
Proof.
  intros Ha Hb. apply running_sum_sums_to in Ha, Hb. congruence.
Qed.

Lemma non_null_values (rows : list MetricDB) :
  non_null (map value rows) = values_of rows.
Proof.
  unfold values_of. induction rows as [|r rows IH]; [reflexivity|].
  simpl. destruct (value r); simpl; now rewrite IH.
Qed.

Lemma named_statistic_get (name : string) (f : aggregate) :
  get stat_func name = Some f ->
  (f = func_min /\ name = "min") \/ (f = func_max /\ name = "max") \/
  (f = func_sum /\ name = "sum") \/ (f = func_avg /\ name = "average").
Proof.
  simpl.
  destruct (String.eqb_spec name "min") as [->|_]; [intros [= <-]; auto|].
  destruct (String.eqb_spec name "max") as [->|_]; [intros [= <-]; auto|].
  destruct (String.eqb_spec name "sum") as [->|_];
    [intros [= <-]; auto 6|].
  destruct (String.eqb_spec name "average") as [->|_];
    [intros [= <-]; auto 6|discriminate].
Qed.

(** The store's aggregate over the cells of some rows is the statistic of
    that name over their values. *)
Lemma eval_aggregate_named (name : string) (f : aggregate)
    (rows : list MetricDB) (a : real) :
  get stat_func name = Some f ->
  eval_aggregate f (map value rows) = Some a <->
  named_statistic name (values_of rows) a.
Proof.
  intros Hf. unfold eval_aggregate. rewrite non_null_values.
  unfold named_statistic.
  destruct (named_statistic_get name f Hf)
    as [[-> ->]|[[-> ->]|[[-> ->]|[-> ->]]]];
    destruct (values_of rows) as [|v vs] eqn:Ev.
  - split; [discriminate|].
    intros [[? _]|[[? _]|[[_ [[] _]]|[? _]]]]; discriminate.
  - split.
    + intros [= <-]. right. right. left. split; [reflexivity|].
      apply fold_min_least.
    + intros [[? _]|[[? _]|[[_ H]|[? _]]]]; try discriminate.
      f_equal. apply (least_unique (v :: vs)); [apply fold_min_least|exact H].
  - split; [discriminate|].
    intros [[? _]|[[? _]|[[? _]|[_ [[] _]]]]]; discriminate.
  - split.
    + intros [= <-]. right. right. right. split; [reflexivity|].
      apply fold_max_greatest.
    + intros [[? _]|[[? _]|[[? _]|[_ H]]]]; try discriminate.
      f_equal.
      apply (greatest_unique (v :: vs)); [apply fold_max_greatest|exact H].
  - split; [discriminate|].
    intros [[_ [H _]]|[[? _]|[[? _]|[? _]]]]; try discriminate. congruence.
  - split.
    + intros H. left. split; [reflexivity|]. split; [discriminate|].
      now apply running_sum_sums_to.
    + intros [[_ [_ H]]|[[? _]|[[? _]|[? _]]]]; try discriminate.
      now apply running_sum_sums_to.
  - split; [discriminate|].
    intros [[? _]|[[_ [H _]]|[[? _]|[? _]]]]; try discriminate. congruence.
  - split.
    + destruct (running_sum (v :: vs)) as [s|] eqn:Es; [|discriminate].
      intros [= <-]. right. left. split; [reflexivity|].
      split; [discriminate|]. exists s. split; [|reflexivity].
      now apply running_sum_sums_to.
    + intros [[? _]|[[_ [_ (s & Hs & ->)]]|[[? _]|[? _]]]]; try discriminate.
      apply running_sum_sums_to in Hs. now rewrite Hs.
Qed.

(** [round(a, 2)] is the value [rounded_2] describes. *)
Lemma round_rounded_2 (a v : real) : round a 2 = v <-> rounded_2 a v.
Proof.
  destruct a as [m|s]; simpl; [|split; congruence].
  change (inject_Z (10 ^ Z.of_nat 2)) with 100%Q.
  assert (forall n, of_Q (inject_Z n / 100) = of_Q (n # 100)) as Hq.
  { intros n. apply of_Q_comp. rewrite (Qmake_Qdiv n 100). reflexivity. }
  split.
  - intros <-. exists (round_half_even (exact m * 100)).
    split; [apply nearest_even_round|apply Hq].
  - intros (n & Hn & ->). apply nearest_even_unique in Hn. subst n.
    apply Hq.
Qed.

End Aggregates.

(** ** The query pipeline *)

Section Pipeline.

Variables (sensor_ids metrics : option (list string)).
Variables (statistic : string) (s e : datetime).

Lemma wanted_truthy (l : option (list string)) (x : string) :
  wanted l x = if truthy l then existsb (String.eqb x) (elements l) else true.
Proof. destruct l as [[|y l]|]; reflexivity. Qed.

Lemma build_query_where (r : MetricDB) :
  forallb (fun p => p r)
    (q_where (build_query sensor_ids metrics statistic s e)) =
  contributes sensor_ids metrics s e r.
Proof.
  unfold build_query, contributes, in_window.
  rewrite !wanted_truthy.
  destruct (get stat_func statistic), (truthy sensor_ids), (truthy metrics);
    simpl; unfold in_, ge_, le_, bind_datetime; simpl;
    rewrite ?andb_true_r, ?andb_assoc; reflexivity.
Qed.

Lemma build_query_selected (db : Session) :
  selected (build_query sensor_ids metrics statistic s e) db =
  filter (contributes sensor_ids metrics s e) db.
Proof.
  unfold selected. apply filter_ext. intros r. apply build_query_where.
Qed.

Lemma build_query_columns :
  q_columns (build_query sensor_ids metrics statistic s e) =
  match get stat_func statistic with
  | Some f => [f]
  | None => []
  end.
Proof.
  unfold build_query.
  destruct (get stat_func statistic), (truthy sensor_ids), (truthy metrics);
    reflexivity.
Qed.

(** The loop appends, group after group, the entry of each group whose
    aggregate is not NULL. *)
Lemma shape_groups (f : aggregate) (rows : list MetricDB)
    (keys : list string) (output : list QueryResult) :
  shape statistic
    (map (fun k =>
            let cells := map value (group k rows) in
            {| row_metric_type := k;
               row_count := List.length (non_null cells);
               row_added := map (fun g => eval_aggregate g cells) [f] |})
         keys)
    output =
  Some (output ++ flat_map (entries_of statistic f rows) keys).
Proof.
  revert output. induction keys as [|k keys IH]; intros output; simpl.
  - now rewrite app_nil_r.
  - unfold row2. simpl. rewrite IH. unfold entries_of.
    destruct (eval_aggregate f (map value (group k rows))); simpl.
    + now rewrite <- app_assoc.
    + reflexivity.
Qed.

End Pipeline.

Section Outcomes.

Variables (clock : Z) (sensor_ids metrics : option (list string)).
Variables (statistic : string) (start_date end_date : option datetime).
Variables (db : Session) (s e : datetime).
Hypothesis Hw : effective_window clock start_date end_date = Some (s, e).

Lemma query_metrics_start_after_end :
  instant e < instant s ->
  query_metrics clock sensor_ids metrics statistic start_date end_date db =
  HTTPException 400 "Start date cannot be after end date.".
Proof.
  intros Hgt. unfold query_metrics. rewrite Hw. unfold gtb.
  destruct (Z.ltb_spec (instant e) (instant s)); [reflexivity|lia].
Qed.

Lemma query_metrics_range_too_large :
  instant s <= instant e -> days_31 < instant e - instant s ->
  query_metrics clock sensor_ids metrics statistic start_date end_date db =
  HTTPException 400 "Query range cannot exceed 1 month (31 days).".
Proof.
  intros Hle Hspan. unfold query_metrics. rewrite Hw.
  unfold gtb, td_gtb, diff, timedelta_days, microseconds_per_day.
  unfold days_31 in Hspan.
  destruct (Z.ltb_spec (instant e) (instant s)); [lia|].
  destruct (Z.ltb_spec (31 * 86400000000) (instant e - instant s));
    [reflexivity|lia].
Qed.

Lemma query_metrics_valid :
  valid_window s e ->
  query_metrics clock sensor_ids metrics statistic start_date end_date db =
  match shape statistic
          (all (build_query sensor_ids metrics statistic s e) db) [] with
  | Some output => Response 200 output
  | None => Unhandled "IndexError"
  end.
Proof.
  intros [Hle Hspan]. unfold query_metrics. rewrite Hw.
  unfold gtb, td_gtb, diff, timedelta_days, microseconds_per_day.
  unfold days_31 in Hspan.
  destruct (Z.ltb_spec (instant e) (instant s)); [lia|].
  destruct (Z.ltb_spec (31 * 86400000000) (instant e - instant s)); [lia|].
  reflexivity.
Qed.

(** What the handler returns once its window has passed validation. *)
Lemma query_metrics_output (f : aggregate) :
  get stat_func statistic = Some f ->
  valid_window s e ->
  query_metrics clock sensor_ids metrics statistic start_date end_date db =
  Response 200
    (flat_map
       (entries_of statistic f (filter (contributes sensor_ids metrics s e) db))
       (group_keys
          (map metric_type (filter (contributes sensor_ids metrics s e) db)))).
Proof.
  intros Hf Hvalid. rewrite (query_metrics_valid Hvalid).
  unfold all. rewrite build_query_selected, build_query_columns, Hf.
  now rewrite shape_groups.
Qed.

End Outcomes.

Lemma query_metrics_overflow (clock : Z)
    (sensor_ids metrics : option (list string)) (statistic : string)
    (start_date end_date : option datetime) (db : Session) :
  effective_window clock start_date end_date = None ->
  query_metrics clock sensor_ids metrics statistic start_date end_date db =
  Unhandled "OverflowError".
Proof. intros H. unfold query_metrics. now rewrite H. Qed.

Lemma window_cases (s e : datetime) :
  instant e < instant s \/
  (instant s <= instant e /\ days_31 < instant e - instant s) \/
  valid_window s e.
Proof. unfold valid_window. lia. Qed.

Lemma instant_attach_utc (d : datetime) : instant (attach_utc d) = instant d.
Proof.
  unfold attach_utc, instant, utcoffset. destruct d as [w [off|]]; reflexivity.
Qed.

Lemma statistic_pattern_enumerated (st : string) :
  statistic_pattern st = true <-> enumerated st.
Proof.
  unfold statistic_pattern, enumerated. simpl.
  rewrite !orb_true_iff, !String.eqb_eq. intuition discriminate.
Qed.

Lemma enumerated_get (name : string) :
  enumerated name <-> exists f, get stat_func name = Some f.
Proof.
  split.
  - intros [-> | [-> | [-> | ->]]]; eexists; reflexivity.
  - intros [f Hf]. unfold enumerated. simpl in Hf.
    destruct (String.eqb_spec name "min"); [tauto|].
    destruct (String.eqb_spec name "max"); [tauto|].
    destruct (String.eqb_spec name "sum"); [tauto|].
    destruct (String.eqb_spec name "average"); [tauto|discriminate].
Qed.

(** ** The query window *)

Section Window.

Lemma in_range_representable (w : Z) :
  in_range w = true <-> representable w.
Proof.
  unfold in_range, representable, max_wall, microseconds_per_day.
  rewrite andb_true_iff, Z.leb_le, Z.ltb_lt. tauto.
Qed.

Lemma day_before_some (d : datetime) :
  representable (wall d - hours_24) ->
  day_before d = Some {| wall := wall d - hours_24; tzinfo := tzinfo d |}.
Proof.
  intros H. unfold day_before, sub_timedelta.
  change (timedelta_days 1) with hours_24.
  apply in_range_representable in H. now rewrite H.
Qed.

Lemma day_before_none (d : datetime) :
  ~ representable (wall d - hours_24) -> day_before d = None.
Proof.
  intros H. unfold day_before, sub_timedelta.
  change (timedelta_days 1) with hours_24.
  destruct (in_range (wall d - hours_24)) eqn:E; [|reflexivity].
  apply in_range_representable in E. contradiction.
Qed.

Lemma attach_utc_aware (d : datetime) : tzinfo (attach_utc d) <> None.
Proof. unfold attach_utc. destruct (tzinfo d) eqn:E; simpl; congruence. Qed.

Lemma effective_window_both (clock : Z) (a b : datetime) :
  effective_window clock (Some a) (Some b) = Some (attach_utc a, attach_utc b).
Proof.
  unfold effective_window, attach_utc, replace_tzinfo.
  destruct a as [wa [oa|]], b as [wb [ob|]]; reflexivity.
Qed.

Lemma effective_window_start (clock : Z) (a : datetime) :
  effective_window clock (Some a) None =
  Some (attach_utc a, {| wall := clock; tzinfo := Some 0 |}).
Proof.
  unfold effective_window, attach_utc, replace_tzinfo.
  destruct a as [wa [oa|]]; reflexivity.
Qed.

Lemma effective_window_end (clock : Z) (b : datetime) :
  representable (wall b - hours_24) ->
  effective_window clock None (Some b) =
  Some (attach_utc {| wall := wall b - hours_24; tzinfo := tzinfo b |},
        attach_utc b).
Proof.
  intros H. unfold effective_window. rewrite (day_before_some b H).
  unfold attach_utc, replace_tzinfo. destruct b as [wb [ob|]]; reflexivity.
Qed.

Lemma effective_window_default (clock : Z) :
  representable (clock - hours_24) ->
  effective_window clock None None =
  Some ({| wall := clock - hours_24; tzinfo := Some 0 |},
        {| wall := clock; tzinfo := Some 0 |}).
Proof.
  intros H. unfold effective_window.
  rewrite (day_before_some (now_utc clock) H). reflexivity.
Qed.

Lemma effective_window_tz (clock : Z) (start_date end_date : option datetime)
    (s e : datetime) :
  effective_window clock start_date end_date = Some (s, e) ->
  attach_utc s = s /\ attach_utc e = e.
Proof.
  unfold effective_window.
  destruct (match start_date, end_date with
            | None, None =>
                match day_before (now_utc clock) with
                | Some sd => Some (sd, now_utc clock)
                | None => None
                end
            | Some sd, None => Some (sd, now_utc clock)
            | None, Some ed =>
                match day_before ed with
                | Some sd => Some (sd, ed)
                | None => None
                end
            | Some sd, Some ed => Some (sd, ed)
            end) as [[a b]|]; [|discriminate].
  intros [= <- <-]. unfold attach_utc, replace_tzinfo.
  destruct a as [wa [oa|]], b as [wb [ob|]]; split; reflexivity.
Qed.

End Window.

(** C1, as the code has it.  The effective window of a query call, with
    [now] the single clock reading of the call: [now - 24h, now] when no
    bound is given; the given start and [now] when only the start is given;
    [end - 24h] and the given end when only the end is given; both bounds as
    given otherwise; where a subtraction of 24 hours is involved, provided
    its result is a datetime of the years 1 to 9999.  In every case a bound
    without time zone gets UTC attached, its wall clock unchanged, and the
    call answers exactly as the call that is given the window as explicit
    bounds, whatever the clock then reads. *)
Theorem effective_window_derivation
    (clock : Z) (start_date end_date : option datetime) :
  let now := {| wall := clock; tzinfo := Some 0 |} in
  (start_date = None -> end_date = None ->
   representable (clock - hours_24) ->
   effective_window clock start_date end_date =
   Some ({| wall := clock - hours_24; tzinfo := Some 0 |}, now))
  /\ (forall s, start_date = Some s -> end_date = None ->
        effective_window clock start_date end_date = Some (attach_utc s, now))
  /\ (forall e, start_date = None -> end_date = Some e ->
        representable (wall e - hours_24) ->
        effective_window clock start_date end_date =
        Some (attach_utc {| wall := wall e - hours_24; tzinfo := tzinfo e |},
              attach_utc e))
  /\ (forall s e, start_date = Some s -> end_date = Some e ->
        effective_window clock start_date end_date =
        Some (attach_utc s, attach_utc e))
  /\ (forall d, wall (attach_utc d) = wall d /\
                tzinfo (attach_utc d) =
                Some match tzinfo d with Some off => off | None => 0 end)
  /\ (forall w clock' sensor_ids metrics statistic db,
        effective_window clock start_date end_date = Some w ->
        query_metrics clock sensor_ids metrics statistic start_date end_date db =
        query_metrics clock' sensor_ids metrics statistic
          (Some (fst w)) (Some (snd w)) db).
Proof.
  intros now. repeat split.
  - intros -> -> H. now apply effective_window_default.
  - intros s -> ->. apply effective_window_start.
  - intros e -> -> H. now apply effective_window_end.
  - intros s e -> ->. apply effective_window_both.
  - destruct d as [wd [off|]]; reflexivity.
  - destruct d as [wd [off|]]; reflexivity.
  - intros [s e] clock' sensor_ids metrics statistic db Hw.
    unfold query_metrics. rewrite Hw. simpl fst. simpl snd.
    rewrite effective_window_both.
    destruct (effective_window_tz _ _ _ _ _ Hw) as [-> ->]. reflexivity.
Qed.

Lemma effective_window_derivation_witness :
  effective_window noon None (Some {| wall := noon; tzinfo := None |}) =
  Some ({| wall := noon - hours_24; tzinfo := Some 0 |},
        {| wall := noon; tzinfo := Some 0 |}).
Proof.
  apply (proj1 (proj2 (proj2
           (effective_window_derivation noon None
              (Some {| wall := noon; tzinfo := None |}))))
           {| wall := noon; tzinfo := None |} eq_refl eq_refl).
  vm_compute. split; [discriminate|reflexivity].
Defined.

(** C1 as stated fails: with only [end_date] given as 0001-01-01T00:00:00,
    [end_date - 24h] is not a datetime; no window is derived and the call
    ends in [OverflowError]. *)
Lemma end_date_at_minimum_overflows :
  let first := {| wall := 0; tzinfo := None |} in
  effective_window noon None (Some first) = None /\
  query_metrics noon None None "min" None (Some first) [] =
    Unhandled "OverflowError" /\
  ~ (exists start_date,
       effective_window noon None (Some first) =
       Some (start_date, attach_utc first)).
Proof.
  intros first. repeat split. intros (start_date & H). discriminate H.
Qed.

(** C2.  Validation of the derived window [(s, e)], first failure first:
    start after end is answered 400 "Start date cannot be after end date.";
    otherwise a span strictly above 31 days is answered 400 "Query range
    cannot exceed 1 month (31 days)."; otherwise, and in particular at a span
    of exactly 31 days, no HTTPException is raised, and a statistic of the
    enumerated set yields a 200 response. *)
Theorem window_validation
    (clock : Z) (sensor_ids metrics : option (list string)) (statistic : string)
    (start_date end_date : option datetime) (db : Session) (s e : datetime) :
  effective_window clock start_date end_date = Some (s, e) ->
  let r := query_metrics clock sensor_ids metrics statistic
             start_date end_date db in
  (instant e < instant s ->
     r = HTTPException 400 "Start date cannot be after end date." /\
     client_error r = true)
  /\ (instant s <= instant e -> days_31 < instant e - instant s ->
        r = HTTPException 400 "Query range cannot exceed 1 month (31 days)." /\
        client_error r = true)
  /\ (instant s <= instant e -> instant e - instant s <= days_31 ->
        (forall code detail, r <> HTTPException code detail) /\
        (enumerated statistic -> exists output, r = Response 200 output))
  /\ (instant e - instant s = days_31 ->
        (forall code detail, r <> HTTPException code detail) /\
        (enumerated statistic -> exists output, r = Response 200 output)).
Proof.
  intros Hw r.
  assert (instant s <= instant e -> instant e - instant s <= days_31 ->
          (forall code detail, r <> HTTPException code detail) /\
          (enumerated statistic -> exists output, r = Response 200 output))
    as Hpass.
  { intros Hle Hspan.
    assert (valid_window s e) as Hvalid by (split; assumption).
    split.
    - intros code detail. subst r.
      rewrite (query_metrics_valid _ _ _ _ _ _ _ _ _ Hw Hvalid).
      destruct (shape _ _ _); discriminate.
    - intros Hstat. apply enumerated_get in Hstat as [f Hf].
      eexists. subst r.
      apply (query_metrics_output _ _ _ _ _ _ _ _ _ Hw f Hf Hvalid). }
  assert (instant e < instant s ->
          r = HTTPException 400 "Start date cannot be after end date.")
    as Hfirst.
  { intros Hgt. subst r.
    apply (query_metrics_start_after_end _ _ _ _ _ _ _ _ _ Hw Hgt). }
  assert (instant s <= instant e -> days_31 < instant e - instant s ->
          r = HTTPException 400 "Query range cannot exceed 1 month (31 days).")
    as Hsecond.
  { intros Hle Hspan. subst r.
    apply (query_metrics_range_too_large _ _ _ _ _ _ _ _ _ Hw Hle Hspan). }
  split; [|split; [|split]].
  - intros Hgt. rewrite (Hfirst Hgt). split; reflexivity.
  - intros Hle Hspan. rewrite (Hsecond Hle Hspan). split; reflexivity.
  - exact Hpass.
  - intros Heq. apply Hpass; unfold days_31 in *; lia.
Qed.

Lemma window_validation_witness :
  let a := {| wall := 0; tzinfo := None |} in
  let b := {| wall := 1; tzinfo := None |} in
  let c := {| wall := days_31; tzinfo := None |} in
  let d := {| wall := days_31 + 1; tzinfo := None |} in
  query_metrics 5 None None "average" (Some b) (Some a) [] =
    HTTPException 400 "Start date cannot be after end date."
  /\ query_metrics 5 None None "average" (Some a) (Some d) [] =
       HTTPException 400 "Query range cannot exceed 1 month (31 days)."
  /\ exists output,
       query_metrics 5 None None "average" (Some a) (Some c) [] =
       Response 200 output.
Proof.
  intros a b c d. split; [|split].
  - apply (window_validation 5 None None "average" (Some b) (Some a) []
             (attach_utc b) (attach_utc a) eq_refl).
    vm_compute. reflexivity.
  - apply (window_validation 5 None None "average" (Some a) (Some d) []
             (attach_utc a) (attach_utc d) eq_refl).
    + vm_compute. discriminate.
    + vm_compute. reflexivity.
  - apply (window_validation 5 None None "average" (Some a) (Some c) []
             (attach_utc a) (attach_utc c) eq_refl).
    + vm_compute. reflexivity.
    + right. right. right. reflexivity.
Defined.

(** ** Filtering, grouping and the reported values *)

Section Groups.

Variables (sensor_ids metrics : option (list string)) (s e : datetime).

Lemma group_filter (k : string) (p : MetricDB -> bool) (db : list MetricDB) :
  group k (filter p db) =
  filter (fun r => p r && String.eqb (metric_type r) k) db.
Proof.
  unfold group. induction db as [|r db IH]; simpl; [reflexivity|].
  destruct (p r); simpl; [|exact IH].
  destruct (String.eqb (metric_type r) k); now rewrite IH.
Qed.

Lemma rows_of_key (db : Session) (k : string) :
  rows_of sensor_ids metrics s e db k <> [] <->
  In k (map metric_type (filter (contributes sensor_ids metrics s e) db)).
Proof.
  rewrite in_map_iff. split.
  - intros Hne.
    destruct (rows_of sensor_ids metrics s e db k) as [|r l] eqn:E;
      [congruence|].
    assert (In r (rows_of sensor_ids metrics s e db k)) as Hin
      by (rewrite E; now left).
    unfold rows_of in Hin. rewrite filter_In, andb_true_iff in Hin.
    destruct Hin as (Hdb & Hc & Hk). apply String.eqb_eq in Hk.
    exists r. rewrite filter_In. auto.
  - intros (r & Hk & Hin) Hnil. rewrite filter_In in Hin.
    assert (In r (rows_of sensor_ids metrics s e db k)) as Hr.
    { unfold rows_of. rewrite filter_In, andb_true_iff, Hk, String.eqb_refl.
      tauto. }
    rewrite Hnil in Hr. exact Hr.
Qed.

Lemma rows_of_In (db : Session) (k : string) (r : MetricDB) :
  In r (rows_of sensor_ids metrics s e db k) <->
  In r db /\ contributes sensor_ids metrics s e r = true /\ metric_type r = k.
Proof.
  unfold rows_of. rewrite filter_In, andb_true_iff, String.eqb_eq. tauto.
Qed.

Lemma named_statistic_nonempty (name : string) (vals : list real) (a : real) :
  named_statistic name vals a -> vals <> [].
Proof.
  intros [[_ [H _]]|[[_ [H _]]|[[_ [H _]]|[_ [H _]]]]]; try exact H;
    intros ->; exact H.
Qed.

Lemma named_statistic_unique (name : string) (vals : list real) (a b : real) :
  named_statistic name vals a -> named_statistic name vals b -> a = b.
Proof.
  intros [[-> [_ Ha]]|[[-> [_ (sa & Ha & ->)]]|[[-> Ha]|[-> Ha]]]]
         [[E [_ Hb]]|[[E [_ (sb & Hb & ->)]]|[[E Hb]|[E Hb]]]];
    try discriminate.
  - now apply (sums_to_unique vals).
  - now rewrite (sums_to_unique vals sa sb).
  - now apply (least_unique vals).
  - now apply (greatest_unique vals).
Qed.

Lemma values_of_rows_nonempty (rows : list MetricDB) :
  values_of rows <> [] -> rows <> [].
Proof. intros H ->. now apply H. Qed.

(** The entries of an answer, read off the table. *)
Lemma entry_in_output (statistic : string) (f : aggregate) (db : Session)
    (entry : QueryResult) :
  get stat_func statistic = Some f ->
  In entry
    (flat_map
       (entries_of statistic f (filter (contributes sensor_ids metrics s e) db))
       (group_keys
          (map metric_type (filter (contributes sensor_ids metrics s e) db))))
  <->
  qr_statistic entry = statistic /\
  exists a,
    named_statistic statistic
      (values_of (rows_of sensor_ids metrics s e db (qr_metric_type entry))) a /\
    rounded_2 a (qr_value entry).
Proof.
  intros Hf. rewrite in_flat_map. unfold entries_of. split.
  - intros (k & Hk & Hin). rewrite group_filter in Hin.
    fold (rows_of sensor_ids metrics s e db k) in Hin.
    destruct (eval_aggregate f
                (map value (rows_of sensor_ids metrics s e db k)))
      as [a|] eqn:Ea; [|contradiction].
    destruct Hin as [<-|[]]. simpl. split; [reflexivity|].
    exists a. split.
    + now apply (eval_aggregate_named statistic f).
    + now apply round_rounded_2.
  - intros (Hstat & a & Ha & Hv).
    exists (qr_metric_type entry). split.
    + apply group_keys_In, rows_of_key, values_of_rows_nonempty.
      now apply (named_statistic_nonempty statistic _ a).
    + rewrite group_filter.
      fold (rows_of sensor_ids metrics s e db (qr_metric_type entry)).
      apply (eval_aggregate_named statistic f) in Ha; [|exact Hf].
      rewrite Ha. left. apply round_rounded_2 in Hv.
      destruct entry as [k st v]. simpl in *. now subst.
Qed.


End Groups.

Section OutputShape.

(** The metric types of the entries are among the keys, in their order. *)
Lemma output_types_sorted (statistic : string) (f : aggregate)
    (rows : list MetricDB) (keys : list string) :
  StronglySorted key_lt keys ->
  StronglySorted key_lt
    (map qr_metric_type (flat_map (entries_of statistic f rows) keys)).
Proof.
  induction 1 as [|k keys Hs IH Hall]; simpl; [constructor|].
  rewrite map_app. unfold entries_of at 1.
  destruct (eval_aggregate f (map value (group k rows))); simpl; [|exact IH].
  constructor; [exact IH|].
  rewrite Forall_forall in *. intros x Hx.
  apply in_map_iff in Hx as (entry & <- & Hin).
  apply in_flat_map in Hin as (k' & Hk' & Hin).
  unfold entries_of in Hin.
  destruct (eval_aggregate f (map value (group k' rows))); [|contradiction].
  destruct Hin as [<-|[]]. simpl. now apply Hall.
Qed.

End OutputShape.




(** The scenarios of the specification, evaluated on the sample table. *)
Example scenario_average :
  query_metrics 2000 (Some ["s1"]) (Some ["temp"]) "average"
    (Some {| wall := 0; tzinfo := None |})
    (Some {| wall := 5000; tzinfo := None |}) sample_db =
  Response 200
    [ {| qr_metric_type := "temp"; qr_statistic := "average";
         qr_value := of_Q 25 |} ].
Proof. vm_compute. reflexivity. Qed.

Example scenario_all_groups :
  query_metrics 2000 None None "max"
    (Some {| wall := 0; tzinfo := None |})
    (Some {| wall := 5000; tzinfo := None |}) sample_db =
  Response 200
    [ {| qr_metric_type := "humidity"; qr_statistic := "max";
         qr_value := of_Q 50 |};
      {| qr_metric_type := "temp"; qr_statistic := "max";
         qr_value := of_Q 30 |} ].
Proof. vm_compute. reflexivity. Qed.




(** ** Rejection of a statistic outside the enumerated set *)

(** C6.  A query call whose [statistic] is not exactly one of min, max, sum,
    average (or is absent) is rejected by request validation, a client
    error, whatever the other parameters, the clock and the store are: no
    window is derived, no range is checked, the store is not read, and the
    store is left as it was. *)
Theorem invalid_statistic_rejected (clock : Z) (p : Params) (db : Session) :
  (forall st, p_statistic p = Some st -> ~ enumerated st) ->
  get_metrics_query clock p db = (RequestValidationError, db) /\
  client_error (fst (get_metrics_query clock p db)) = true /\
  snd (get_metrics_query clock p db) = db.
Proof.
  intros Hst.
  assert (get_metrics_query clock p db = (RequestValidationError, db)) as E.
  { unfold get_metrics_query. destruct (p_statistic p) as [st|]; [|reflexivity].
    destruct (statistic_pattern st) eqn:Hp; [|reflexivity].
    apply statistic_pattern_enumerated in Hp. now apply Hst in Hp. }
  rewrite E. auto.
Qed.

Lemma invalid_statistic_rejected_witness :
  let p := {| p_sensor_ids := None; p_metrics := None;
              p_statistic := Some "median";
              p_start_date := Some {| wall := 9; tzinfo := None |};
              p_end_date := Some {| wall := 0; tzinfo := None |} |} in
  get_metrics_query 2000 p sample_db = (RequestValidationError, sample_db) /\
  client_error (fst (get_metrics_query 2000 p sample_db)) = true /\
  snd (get_metrics_query 2000 p sample_db) = sample_db.
Proof.
  intros p. apply (invalid_statistic_rejected 2000 p sample_db).
  intros st [= <-]. unfold enumerated. intuition discriminate.
Defined.

(** ** Ingestion *)

Section Ingestion.

Lemma id_le_max (db : Session) (r : MetricDB) :
  In r db -> id r <= fold_right Z.max 0 (map id db).
Proof.
  induction db as [|x db IH]; simpl; [tauto|].
  intros [->|H]; [lia|]. apply IH in H. lia.
Qed.

Lemma next_id_fresh (db : Session) (r : MetricDB) :
  In r db -> id r < next_id db.
Proof. intros H. apply id_le_max in H. unfold next_id. lia. Qed.

(** A body that passes validation is stored, whatever the response. *)
Lemma post_metrics_parsed (parsed_at handled_at : Z) (b : Body) (db : Session)
    (sid mt : string) (x : number) :
  b_sensor_id b = Given sid -> b_metric_type b = Given mt ->
  b_value b = Given x -> b_timestamp b <> Invalid ->
  let row :=
    {| id := next_id db; sensor_id := sid; metric_type := mt;
       value := bind_real (parse_float x);
       timestamp :=
         bind_datetime (resolved parsed_at handled_at (b_timestamp b)) |} in
  post_metrics parsed_at handled_at b db = (render_metric row, db ++ [row]).
Proof.
  intros Hs Hm Hv Ht. unfold post_metrics, parse_MetricCreate, create_metric.
  rewrite Hs, Hm, Hv. destruct (b_timestamp b); try reflexivity.
  congruence.
Qed.

Lemma post_metrics_rejected (parsed_at handled_at : Z) (b : Body)
    (db : Session) :
  (forall sid, b_sensor_id b <> Given sid) \/
  (forall mt, b_metric_type b <> Given mt) \/
  (forall v, b_value b <> Given v) \/
  b_timestamp b = Invalid ->
  post_metrics parsed_at handled_at b db = (RequestValidationError, db).
Proof.
  intros H. unfold post_metrics, parse_MetricCreate.
  destruct (b_sensor_id b) as [| | |sid]; try reflexivity.
  destruct (b_metric_type b) as [| | |mt]; try reflexivity.
  destruct (b_value b) as [| | |v]; try reflexivity.
  destruct H as [H|[H|[H|H]]]; try (exfalso; eapply H; reflexivity).
  now rewrite H.
Qed.

Lemma field_invalid_dec {A} (f : field A) : {f = Invalid} + {f <> Invalid}.
Proof. destruct f; [right|right|left|right]; congruence. Qed.

Lemma post_metrics_success (parsed_at handled_at : Z) (b : Body)
    (db db' : Session) (row : MetricDB) :
  post_metrics parsed_at handled_at b db = (Response 201 row, db') ->
  exists x m,
    b_sensor_id b = Given (sensor_id row) /\
    b_metric_type b = Given (metric_type row) /\
    b_value b = Given x /\ parse_float x = Real (Finite m) /\
    value row = Some (Finite m) /\
    id row = next_id db /\
    timestamp row =
      bind_datetime (resolved parsed_at handled_at (b_timestamp b)) /\
    db' = db ++ [row].
Proof.
  destruct (b_sensor_id b) as [| | |sid] eqn:Hs;
    try (rewrite post_metrics_rejected by (left; congruence); discriminate).
  destruct (b_metric_type b) as [| | |mt] eqn:Hm;
    try (rewrite post_metrics_rejected by (right; left; congruence);
         discriminate).
  destruct (b_value b) as [| | |x] eqn:Hv;
    try (rewrite post_metrics_rejected by (right; right; left; congruence);
         discriminate).
  destruct (field_invalid_dec (b_timestamp b)) as [Ht|Ht].
  { rewrite post_metrics_rejected by (right; right; right; exact Ht).
    discriminate. }
  rewrite (post_metrics_parsed parsed_at handled_at b db sid mt x Hs Hm Hv Ht).
  unfold render_metric. simpl value.
  destruct (parse_float x) as [[m|sg]|] eqn:Hx; simpl; try discriminate.
  intros [= <- <-]. exists x, m. simpl.
  repeat split; try reflexivity; exact Hx.
Qed.

Lemma Decimal_of_finite (x : number) (m : Z) :
  parse_float x = Real (Finite m) ->
  exists q, x = Decimal q /\ of_Q q = Finite m /\ binary64 m.
Proof.
  destruct x as [q| |sg]; simpl; try discriminate.
  intros [= H]. exists q. split; [reflexivity|]. split; [exact H|].
  now apply (of_Q_binary64 q).
Qed.

End Ingestion.

(** C8, as the code has it.  A successful ingestion call appends exactly
    one row, the row it returns: the table grows by one, every row stored
    before is still at its place and unchanged, and the returned row carries
    the request's [sensor_id], [metric_type] and (finite) [value], the key
    the store assigned, which no earlier row has, and the wall-clock fields
    of the resolved timestamp (the given one, else the current instant in
    UTC), without any time zone. *)
Theorem create_appends_one_row
    (parsed_at handled_at : Z) (b : Body) (db db' : Session) (row : MetricDB) :
  post_metrics parsed_at handled_at b db = (Response 201 row, db') ->
  db' = db ++ [row] /\
  List.length db' = S (List.length db) /\
  (forall i r, nth_error db i = Some r -> nth_error db' i = Some r) /\
  b_sensor_id b = Given (sensor_id row) /\
  b_metric_type b = Given (metric_type row) /\
  (exists x m, b_value b = Given x /\ parse_float x = Real (Finite m) /\
               value row = Some (Finite m)) /\
  timestamp row =
    {| wall := wall (resolved parsed_at handled_at (b_timestamp b));
       tzinfo := None |} /\
  id row = next_id db /\
  (forall r, In r db -> id r < id row).
Proof.
  intros H. apply post_metrics_success in H
    as (x & m & Hs & Hm & Hv & Hx & Hval & Hid & Hts & ->).
  repeat split; try assumption.
  - rewrite length_app. simpl. lia.
  - intros i r Hi. rewrite nth_error_app1; [exact Hi|].
    apply nth_error_Some. congruence.
  - exists x, m. auto.
  - intros r Hr. rewrite Hid. now apply next_id_fresh.
Qed.

Lemma create_appends_one_row_witness :
  let b := {| b_sensor_id := Given "sensor1";
              b_metric_type := Given "temperature";
              b_value := Given (Decimal (51 # 2)); b_timestamp := Missing |} in
  let row := {| id := 4; sensor_id := "sensor1"; metric_type := "temperature";
                value := Some (of_Q (51 # 2));
                timestamp := {| wall := 3000; tzinfo := None |} |} in
  post_metrics 3000 3001 b sample_db = (Response 201 row, sample_db ++ [row]) /\
  List.length (sample_db ++ [row]) = S (List.length sample_db) /\
  id row = next_id sample_db.
Proof.
  intros b row.
  assert (post_metrics 3000 3001 b sample_db =
          (Response 201 row, sample_db ++ [row])) as E
    by (vm_compute; reflexivity).
  split; [exact E|].
  pose proof (create_appends_one_row 3000 3001 b sample_db _ row E) as H.
  split; [apply H|apply H].
Defined.

(** C8 as stated fails: the timestamp that comes back is not the resolved
    one.  For a reading sent as 16:00+05:00 the row returned says 16:00
    without time zone, five hours away from the instant that was sent when
    read as UTC. *)
Lemma returned_timestamp_is_naive :
  let sent := {| wall := noon + 4 * hour; tzinfo := Some (5 * hour) |} in
  let b := {| b_sensor_id := Given "s1"; b_metric_type := Given "temp";
              b_value := Given (Decimal 1); b_timestamp := Given sent |} in
  exists row db',
    post_metrics noon noon b [] = (Response 201 row, db') /\
    timestamp row <> sent /\
    instant (timestamp row) = instant sent + 5 * hour.
Proof.
  intros sent b. eexists. eexists. split; [vm_compute; reflexivity|].
  split; [discriminate|vm_compute; reflexivity].
Qed.

(** C5, as the code has it.  An ingestion request in which [sensor_id],
    [metric_type] or [value] is absent, null or not of its type, or whose
    [timestamp] is malformed, fails request validation, a client error, and
    no row is appended.  A request whose fields are of their types and whose
    value is a finite number is accepted, whatever the two strings are, the
    empty string included, and appends exactly one row. *)
Theorem ingestion_validation
    (parsed_at handled_at : Z) (b : Body) (db : Session) :
  ((forall sid, b_sensor_id b <> Given sid) \/
   (forall mt, b_metric_type b <> Given mt) \/
   (forall v, b_value b <> Given v) \/
   b_timestamp b = Invalid ->
   post_metrics parsed_at handled_at b db = (RequestValidationError, db) /\
   client_error (fst (post_metrics parsed_at handled_at b db)) = true)
  /\ (forall sid mt q,
        b_sensor_id b = Given sid -> b_metric_type b = Given mt ->
        b_value b = Given (Decimal q) -> is_finite (of_Q q) = true ->
        b_timestamp b <> Invalid ->
        exists row,
          post_metrics parsed_at handled_at b db =
            (Response 201 row, db ++ [row]) /\
          sensor_id row = sid /\ metric_type row = mt /\
          value row = Some (of_Q q)).
Proof.
  split.
  - intros H. rewrite (post_metrics_rejected parsed_at handled_at b db H).
    auto.
  - intros sid mt q Hs Hm Hv Hfin Ht.
    exists {| id := next_id db; sensor_id := sid; metric_type := mt;
              value := Some (of_Q q);
              timestamp :=
                bind_datetime
                  (resolved parsed_at handled_at (b_timestamp b)) |}.
    split; [|auto].
    rewrite (post_metrics_parsed parsed_at handled_at b db sid mt
               (Decimal q) Hs Hm Hv Ht).
    unfold render_metric. simpl.
    destruct (of_Q q); [reflexivity|discriminate].
Qed.

Lemma ingestion_validation_witness :
  let missing := {| b_sensor_id := Given "s1"; b_metric_type := Missing;
                    b_value := Given (Decimal 1); b_timestamp := Missing |} in
  let blank := {| b_sensor_id := Given ""; b_metric_type := Given "";
                  b_value := Given (Decimal 1); b_timestamp := Missing |} in
  post_metrics 3000 3001 missing sample_db =
    (RequestValidationError, sample_db)
  /\ exists row,
       post_metrics 3000 3001 blank sample_db =
         (Response 201 row, sample_db ++ [row]) /\
       sensor_id row = "" /\ metric_type row = "" /\
       value row = Some (of_Q 1).
Proof.
  intros missing blank. split.
  - apply (ingestion_validation 3000 3001 missing sample_db).
    right. left. intros mt. discriminate.
  - apply (ingestion_validation 3000 3001 blank sample_db);
      try reflexivity. discriminate.
Defined.

(** C5 as stated fails twice.  A request whose [sensor_id] is the empty
    string is answered 201 and its row is stored.  A request whose value is
    NaN is not answered with a client error, and its row is stored, without
    a value. *)
Lemma empty_sensor_id_is_stored :
  (let b := {| b_sensor_id := Given ""; b_metric_type := Given "temperature";
               b_value := Given (Decimal (51 # 2)); b_timestamp := Missing |} in
   let row := {| id := 1; sensor_id := ""; metric_type := "temperature";
                 value := Some (of_Q (51 # 2));
                 timestamp := {| wall := 3000; tzinfo := None |} |} in
   post_metrics 3000 3001 b [] = (Response 201 row, [row]) /\
   client_error (fst (post_metrics 3000 3001 b [])) = false)
  /\ (let b := {| b_sensor_id := Given "s1"; b_metric_type := Given "temp";
                  b_value := Given NaN_literal; b_timestamp := Missing |} in
      let row := {| id := 1; sensor_id := "s1"; metric_type := "temp";
                    value := None;
                    timestamp := {| wall := 3000; tzinfo := None |} |} in
      post_metrics 3000 3001 b [] =
        (Unhandled "ResponseValidationError", [row]) /\
      client_error (fst (post_metrics 3000 3001 b [])) = false).
Proof.
  split; split; vm_compute; reflexivity.
Qed.

(** ** Ingest, then query *)

Section RoundTrip.

Lemma filter_none {A} (p : A -> bool) (l : list A) :
  (forall x, In x l -> p x = false) -> filter p l = [].
Proof.
  induction l as [|x l IH]; simpl; intros H; [reflexivity|].
  rewrite (H x) by now left. apply IH. intros y Hy. apply H. now right.
Qed.

Lemma eval_aggregate_single (f : aggregate) (m : Z) :
  binary64 m -> eval_aggregate f [Some (Finite m)] = Some (Finite m).
Proof.
  intros Hb. unfold eval_aggregate, running_sum.
  cbn [non_null fold_left sum_step List.length].
  rewrite (add_zero m Hb).
  destruct f; try reflexivity.
  now rewrite (div_count_one m Hb).
Qed.

End RoundTrip.

(** C7, as the code has it.  Round trip: after a reading has been ingested
    into a table in which no row matched its sensor id and metric type
    within the window, the query for exactly that sensor id and metric type,
    over a valid window whose wall-clock bounds contain the wall clock of
    the stored timestamp, answers with a single entry whose value is the
    reading's value rounded to 2 decimal places, for each of min, max, sum
    and average. *)
Theorem ingest_then_query
    (parsed_at handled_at : Z) (b : Body) (db db' : Session) (row : MetricDB)
    (clock : Z) (statistic : string) (start_date end_date : option datetime)
    (s e : datetime) :
  post_metrics parsed_at handled_at b db = (Response 201 row, db') ->
  enumerated statistic ->
  effective_window clock start_date end_date = Some (s, e) ->
  valid_window s e ->
  in_window s e row = true ->
  (forall r, In r db ->
     contributes (Some [sensor_id row]) (Some [metric_type row]) s e r = false) ->
  exists q v w,
    b_value b = Given (Decimal q) /\ v = of_Q q /\ value row = Some v /\
    rounded_2 v w /\
    get_metrics_query clock
      {| p_sensor_ids := Some [sensor_id row];
         p_metrics := Some [metric_type row];
         p_statistic := Some statistic;
         p_start_date := start_date;
         p_end_date := end_date |} db' =
    (Response 200
       [ {| qr_metric_type := metric_type row;
            qr_statistic := statistic;
            qr_value := w |} ],
     db').
Proof.
  intros Hpost Hstat Hw Hvalid Hin Hnone.
  apply post_metrics_success in Hpost
    as (x & m & _ & _ & Hv & Hx & Hval & _ & _ & ->).
  apply Decimal_of_finite in Hx as (q & -> & Hq & Hb).
  exists q, (Finite m), (round (Finite m) 2).
  split; [exact Hv|]. split; [now rewrite Hq|].
  split; [exact Hval|]. split; [now apply round_rounded_2|].
  unfold get_metrics_query.
  cbn [p_statistic p_sensor_ids p_metrics p_start_date p_end_date].
  rewrite (proj2 (statistic_pattern_enumerated statistic) Hstat).
  apply enumerated_get in Hstat as [f Hf].
  rewrite (query_metrics_output _ _ _ _ _ _ (db ++ [row]) _ _ Hw f Hf Hvalid).
  rewrite filter_app, (filter_none _ db Hnone). cbn [filter app].
  assert (contributes (Some [sensor_id row]) (Some [metric_type row]) s e row
          = true) as ->.
  { unfold contributes. simpl. now rewrite !String.eqb_refl, Hin. }
  cbn [map group_keys fold_right insert_key flat_map app].
  unfold entries_of, group. cbn [filter]. rewrite String.eqb_refl.
  cbn [map]. rewrite Hval, (eval_aggregate_single f m Hb).
  destruct (round_2_finite m Hb) as (m' & Hr).
  unfold render_query. cbn [forallb qr_value]. rewrite Hr. reflexivity.
Qed.

Lemma ingest_then_query_witness :
  let b := {| b_sensor_id := Given "s9"; b_metric_type := Given "temp";
              b_value := Given (Decimal (201 # 8)); b_timestamp := Null |} in
  let row := {| id := 4; sensor_id := "s9"; metric_type := "temp";
                value := Some (of_Q (201 # 8));
                timestamp := {| wall := noon + 1; tzinfo := None |} |} in
  post_metrics noon (noon + 1) b sample_db =
    (Response 201 row, sample_db ++ [row])
  /\ get_metrics_query (noon + hour)
       {| p_sensor_ids := Some ["s9"]; p_metrics := Some ["temp"];
          p_statistic := Some "average";
          p_start_date := Some {| wall := noon; tzinfo := None |};
          p_end_date := None |} (sample_db ++ [row]) =
     (Response 200
        [ {| qr_metric_type := "temp"; qr_statistic := "average";
             qr_value := of_Q (2512 # 100) |} ],
      sample_db ++ [row]).
Proof.
  intros b row.
  assert (post_metrics noon (noon + 1) b sample_db =
          (Response 201 row, sample_db ++ [row])) as E
    by (vm_compute; reflexivity).
  split; [exact E|].
  assert (round (of_Q (201 # 8)) 2 = of_Q (2512 # 100)) as Hround
    by (vm_compute; reflexivity).
  destruct (ingest_then_query noon (noon + 1) b sample_db (sample_db ++ [row])
              row (noon + hour) "average"
              (Some {| wall := noon; tzinfo := None |}) None
              {| wall := noon; tzinfo := Some 0 |}
              {| wall := noon + hour; tzinfo := Some 0 |})
    as (q & v & w & Hq & Hv & Hval & Hw & Hget).
  - exact E.
  - right. right. right. reflexivity.
  - reflexivity.
  - split; vm_compute; discriminate.
  - vm_compute. reflexivity.
  - intros r [<-|[<-|[<-|[]]]]; vm_compute; reflexivity.
  - injection Hq as <-. subst v. apply round_rounded_2 in Hw.
    rewrite <- Hround, Hw. exact Hget.
Defined.

(** C7 as stated fails: a reading sent with the timestamp 16:00+05:00,
    which is 11:00 UTC, is not found by the query over the window from
    10:00 to 12:00 UTC, which contains its timestamp. *)
Lemma offset_reading_is_missed :
  let sent := {| wall := noon + 4 * hour; tzinfo := Some (5 * hour) |} in
  let b := {| b_sensor_id := Given "s1"; b_metric_type := Given "temp";
              b_value := Given (Decimal 1); b_timestamp := Given sent |} in
  let s := {| wall := noon - 2 * hour; tzinfo := Some 0 |} in
  let e := {| wall := noon; tzinfo := Some 0 |} in
  exists row db',
    post_metrics noon noon b [] = (Response 201 row, db') /\
    instant s <= instant sent <= instant e /\
    get_metrics_query (noon + 1)
      {| p_sensor_ids := Some ["s1"]; p_metrics := Some ["temp"];
         p_statistic := Some "average";
         p_start_date := Some s; p_end_date := Some e |} db' =
    (Response 200 [], db').
Proof.
  intros sent b s e. eexists. eexists.
  split; [vm_compute; reflexivity|].
  split; [vm_compute; split; discriminate|vm_compute; reflexivity].
Qed.

(** ** Empty filter lists and open-ended future starts *)



(** C10.  A query call that gives [start_date] and no [end_date], with the
    start strictly after the current instant, fails with status 400 and the
    message "Start date cannot be after end date.", whatever the other
    parameters and the store are; through the endpoint the same holds for
    every statistic of the enumerated set. *)
Theorem future_start_without_end_fails
    (clock : Z) (sensor_ids metrics : option (list string)) (statistic : string)
    (start_date : datetime) (db : Session) :
  clock < instant start_date ->
  query_metrics clock sensor_ids metrics statistic (Some start_date) None db =
    HTTPException 400 "Start date cannot be after end date."
  /\ client_error
       (query_metrics clock sensor_ids metrics statistic
          (Some start_date) None db) = true
  /\ (enumerated statistic ->
      get_metrics_query clock
        {| p_sensor_ids := sensor_ids; p_metrics := metrics;
           p_statistic := Some statistic;
           p_start_date := Some start_date; p_end_date := None |} db =
      (HTTPException 400 "Start date cannot be after end date.", db)).
Proof.
  intros Hfuture.
  assert (query_metrics clock sensor_ids metrics statistic
            (Some start_date) None db =
          HTTPException 400 "Start date cannot be after end date.") as E.
  { apply (query_metrics_start_after_end _ _ _ _ _ _ _ _ _
             (effective_window_start clock start_date)).
    rewrite instant_attach_utc. unfold instant at 1, utcoffset. simpl. lia. }
  split; [exact E|]. split; [now rewrite E|].
  intros Hstat. unfold get_metrics_query. simpl.
  rewrite (proj2 (statistic_pattern_enumerated statistic) Hstat).
  now rewrite E.
Qed.

Lemma future_start_without_end_fails_witness :
  query_metrics 2000 None (Some ["temp"]) "sum"
    (Some {| wall := 2001; tzinfo := None |}) None sample_db =
  HTTPException 400 "Start date cannot be after end date.".
Proof.
  apply (future_start_without_end_fails 2000 None (Some ["temp"]) "sum"
           {| wall := 2001; tzinfo := None |} sample_db).
  reflexivity.
Defined.

(** ** The outcomes of a query *)

Section Answers.

Variables (clock : Z) (sensor_ids metrics : option (list string)).
Variables (start_date end_date : option datetime) (db : Session).
Variables (s e : datetime).
Hypothesis Hw : effective_window clock start_date end_date = Some (s, e).

Lemma response_200_valid (statistic : string) (output : list QueryResult) :
  query_metrics clock sensor_ids metrics statistic start_date end_date db =
  Response 200 output ->
  valid_window s e.
Proof.
  intros H. destruct (window_cases s e) as [Hgt|[[Hle Hspan]|Hvalid]].
  - rewrite (query_metrics_start_after_end _ _ _ _ _ _ _ _ _ Hw Hgt) in H.
    discriminate.
  - rewrite (query_metrics_range_too_large _ _ _ _ _ _ _ _ _ Hw Hle Hspan) in H.
    discriminate.
  - exact Hvalid.
Qed.

Lemma response_200_output (statistic : string) (f : aggregate)
    (output : list QueryResult) :
  get stat_func statistic = Some f ->
  query_metrics clock sensor_ids metrics statistic start_date end_date db =
  Response 200 output ->
  output =
  flat_map
    (entries_of statistic f (filter (contributes sensor_ids metrics s e) db))
    (group_keys
       (map metric_type (filter (contributes sensor_ids metrics s e) db))).
Proof.
  intros Hf H. pose proof (response_200_valid _ _ H) as Hvalid.
  rewrite (query_metrics_output _ _ _ _ _ _ _ _ _ Hw f Hf Hvalid) in H.
  now injection H as <-.
Qed.

Lemma insert_key_cons (k : string) (keys : list string) :
  insert_key k keys <> [].
Proof.
  destruct keys as [|x keys]; simpl; [discriminate|].
  destruct (String.compare k x); discriminate.
Qed.

Lemma existsb_filter {A} (p : A -> bool) (l : list A) :
  existsb p l = match filter p l with [] => false | _ :: _ => true end.
Proof.
  induction l as [|x l IH]; simpl; [reflexivity|].
  destruct (p x); simpl; [reflexivity|exact IH].
Qed.

(** Without an entry in [stat_func] no column is added, and [row[2]]
    fails on the first group. *)
Lemma query_metrics_no_column (statistic : string) :
  get stat_func statistic = None ->
  valid_window s e ->
  query_metrics clock sensor_ids metrics statistic start_date end_date db =
  if existsb (contributes sensor_ids metrics s e) db
  then Unhandled "IndexError"
  else Response 200 [].
Proof.
  intros Hnone Hvalid.
  rewrite (query_metrics_valid _ _ _ _ _ _ _ _ _ Hw Hvalid).
  unfold all. rewrite build_query_selected, build_query_columns, Hnone.
  rewrite existsb_filter.
  destruct (filter (contributes sensor_ids metrics s e) db) as [|r rows];
    [reflexivity|].
  unfold group_keys. cbn [map fold_right].
  destruct (insert_key (metric_type r)
              (fold_right insert_key [] (map metric_type rows)))
    as [|k ks] eqn:E.
  - now apply insert_key_cons in E.
  - reflexivity.
Qed.

End Answers.



(** X2.  Called directly with a statistic that has no entry in
    [stat_func], on a valid window, [query_metrics] adds no aggregate
    column: it returns the empty list when no row contributes, and fails on
    [row[2]] as soon as one row does. *)
Theorem unknown_statistic_direct_call
    (clock : Z) (sensor_ids metrics : option (list string)) (statistic : string)
    (start_date end_date : option datetime) (db : Session) (s e : datetime) :
  get stat_func statistic = None ->
  effective_window clock start_date end_date = Some (s, e) ->
  valid_window s e ->
  query_metrics clock sensor_ids metrics statistic start_date end_date db =
  if existsb (contributes sensor_ids metrics s e) db
  then Unhandled "IndexError"
  else Response 200 [].
Proof.
  intros Hnone Hw Hvalid.
  now apply (query_metrics_no_column _ _ _ _ _ _ _ _ Hw).
Qed.

Lemma unknown_statistic_direct_call_witness :
  query_metrics 2000 None None "median"
    (Some {| wall := 0; tzinfo := None |}) None sample_db =
    Unhandled "IndexError"
  /\ query_metrics 2000 None (Some ["pressure"]) "median"
       (Some {| wall := 0; tzinfo := None |}) None sample_db =
       Response 200 [].
Proof.
  split.
  - apply (unknown_statistic_direct_call 2000 None None "median"
             (Some {| wall := 0; tzinfo := None |}) None
             sample_db _ _ eq_refl eq_refl).
    split; vm_compute; discriminate.
  - apply (unknown_statistic_direct_call 2000 None (Some ["pressure"]) "median"
             (Some {| wall := 0; tzinfo := None |}) None
             sample_db _ _ eq_refl eq_refl).
    split; vm_compute; discriminate.
Defined.

(** X3.  A query that gives no [start_date] (with or without an
    [end_date]) is never answered with a range error.  When the day before
    its end exists, its window spans exactly 24 hours, whatever the clock
    and the given end are, and a statistic of the enumerated set makes the
    handler return a list; when it does not (an end within the first day of
    year 1), the call fails with [OverflowError]. *)
Theorem missing_start_never_rejected
    (clock : Z) (sensor_ids metrics : option (list string)) (statistic : string)
    (end_date : option datetime) (db : Session) :
  (forall code detail,
     query_metrics clock sensor_ids metrics statistic None end_date db <>
     HTTPException code detail)
  /\ (forall s e,
        effective_window clock None end_date = Some (s, e) ->
        instant e - instant s = hours_24 /\
        (enumerated statistic ->
         exists output,
           query_metrics clock sensor_ids metrics statistic None end_date db =
           Response 200 output))
  /\ (effective_window clock None end_date = None ->
      query_metrics clock sensor_ids metrics statistic None end_date db =
      Unhandled "OverflowError").
Proof.
  assert (forall s e, effective_window clock None end_date = Some (s, e) ->
                      instant e - instant s = hours_24) as Hspan.
  { intros s e. unfold effective_window, day_before, sub_timedelta.
    change (timedelta_days 1) with hours_24.
    destruct end_date as [[we [oe|]]|]; cbn [wall tzinfo now_utc];
      match goal with |- context [in_range ?w] => destruct (in_range w) end;
      try discriminate; intros [= <- <-];
      unfold instant, utcoffset, replace_tzinfo; simpl; unfold utc; lia. }
  assert (forall s e, effective_window clock None end_date = Some (s, e) ->
                      valid_window s e) as Hvalid.
  { intros s e Hw. pose proof (Hspan s e Hw) as Hd.
    unfold valid_window, hours_24, days_31 in *. lia. }
  split; [|split].
  - intros code detail.
    destruct (effective_window clock None end_date) as [[s e]|] eqn:Hw.
    + rewrite (query_metrics_valid _ _ _ _ _ _ _ _ _ Hw (Hvalid s e eq_refl)).
      destruct (shape _ _ _); discriminate.
    + rewrite (query_metrics_overflow _ _ _ _ _ _ _ Hw). discriminate.
  - intros s e Hw. split; [now apply Hspan|].
    intros Hstat. apply enumerated_get in Hstat as [f Hf]. eexists.
    apply (query_metrics_output _ _ _ _ _ _ _ _ _ Hw f Hf (Hvalid s e Hw)).
  - apply query_metrics_overflow.
Qed.

Lemma missing_start_never_rejected_witness :
  (exists output,
     query_metrics noon None None "min" None
       (Some {| wall := noon + hour; tzinfo := None |}) sample_db =
     Response 200 output)
  /\ query_metrics noon None None "min" None
       (Some {| wall := 5; tzinfo := None |}) sample_db =
     Unhandled "OverflowError".
Proof.
  split.
  - apply (proj1 (proj2 (missing_start_never_rejected noon None None "min"
                           (Some {| wall := noon + hour; tzinfo := None |})
                           sample_db))
             {| wall := noon + hour - hours_24; tzinfo := Some 0 |}
             {| wall := noon + hour; tzinfo := Some 0 |}).
    + reflexivity.
    + left. reflexivity.
  - apply (proj2 (proj2 (missing_start_never_rejected noon None None "min"
                           (Some {| wall := 5; tzinfo := None |})
                           sample_db))).
    reflexivity.
Defined.

(** X4.  A query that gives [start_date] and no [end_date] is measured
    against the clock: a start more than 31 days before the current instant
    is answered 400 "Query range cannot exceed 1 month (31 days).", and a
    start between 31 days ago and now (both included) passes validation. *)
Theorem open_ended_start_range
    (clock : Z) (sensor_ids metrics : option (list string)) (statistic : string)
    (start_date : datetime) (db : Session) :
  (instant start_date < clock - days_31 ->
   query_metrics clock sensor_ids metrics statistic (Some start_date) None db =
   HTTPException 400 "Query range cannot exceed 1 month (31 days).")
  /\ (clock - days_31 <= instant start_date <= clock ->
      (forall code detail,
         query_metrics clock sensor_ids metrics statistic
           (Some start_date) None db <> HTTPException code detail) /\
      (enumerated statistic ->
       exists output,
         query_metrics clock sensor_ids metrics statistic
           (Some start_date) None db = Response 200 output)).
Proof.
  pose proof (effective_window_start clock start_date) as Hw.
  assert (instant {| wall := clock; tzinfo := Some 0 |} = clock) as Hnow
    by (unfold instant, utcoffset; simpl; lia).
  split.
  - intros Hold.
    apply (query_metrics_range_too_large _ _ _ _ _ _ _ _ _ Hw);
      rewrite instant_attach_utc, Hnow; unfold days_31 in *; lia.
  - intros Hin.
    assert (valid_window (attach_utc start_date)
              {| wall := clock; tzinfo := Some 0 |}) as Hvalid.
    { unfold valid_window. rewrite instant_attach_utc, Hnow. lia. }
    split.
    + intros code detail.
      rewrite (query_metrics_valid _ _ _ _ _ _ _ _ _ Hw Hvalid).
      destruct (shape _ _ _); discriminate.
    + intros Hstat. apply enumerated_get in Hstat as [f Hf]. eexists.
      apply (query_metrics_output _ _ _ _ _ _ _ _ _ Hw f Hf Hvalid).
Qed.

Lemma open_ended_start_range_witness :
  query_metrics noon None None "sum"
    (Some {| wall := noon - days_31 - 1; tzinfo := None |}) None sample_db =
    HTTPException 400 "Query range cannot exceed 1 month (31 days)."
  /\ exists output,
       query_metrics noon None None "sum"
         (Some {| wall := noon - days_31; tzinfo := None |}) None sample_db =
       Response 200 output.
Proof.
  split.
  - apply (open_ended_start_range noon None None "sum"
             {| wall := noon - days_31 - 1; tzinfo := None |} sample_db).
    vm_compute. reflexivity.
  - apply (open_ended_start_range noon None None "sum"
             {| wall := noon - days_31; tzinfo := None |} sample_db).
    + split; vm_compute; discriminate.
    + right. right. left. reflexivity.
Defined.

(** ** Sequences of calls *)

Section Runs.

Lemma handle_session (req : request) (db : Session) :
  (stores req = false /\ snd (handle req db) = db) \/
  (stores req = true /\
   exists row, id row = next_id db /\ snd (handle req db) = db ++ [row]).
Proof.
  destruct req as [parsed_at handled_at b|clock p]; simpl.
  - unfold post_metrics, parse_MetricCreate.
    destruct (b_sensor_id b) as [| | |sid]; try (left; split; reflexivity).
    destruct (b_metric_type b) as [| | |mt]; try (left; split; reflexivity).
    destruct (b_value b) as [| | |v]; try (left; split; reflexivity).
    destruct (b_timestamp b) as [| | |d]; try (left; split; reflexivity);
      right; (split; [reflexivity|]); simpl; eexists;
      (split; [|reflexivity]); reflexivity.
  - left. split; [reflexivity|]. unfold get_metrics_query.
    destruct (p_statistic p) as [st|]; [|reflexivity].
    destruct (statistic_pattern st); reflexivity.
Qed.

Lemma run_cons (req : request) (reqs : list request) (db : Session) :
  snd (run (req :: reqs) db) = snd (run reqs (snd (handle req db))) /\
  List.length (fst (run (req :: reqs) db)) =
  S (List.length (fst (run reqs (snd (handle req db))))).
Proof.
  simpl. destruct (handle req db) as [r db1]. simpl.
  destruct (run reqs db1) as [rs db2]. split; reflexivity.
Qed.

Lemma max_id_consecutive (n : nat) :
  fold_right Z.max 0 (map Z.of_nat (seq 1 n)) = Z.of_nat n.
Proof.
  induction n as [|n IH]; [reflexivity|].
  rewrite seq_S, map_app, fold_right_app. simpl fold_right at 2.
  remember (map Z.of_nat (seq 1 n)) as l eqn:El. clear El.
  assert (forall a, fold_right Z.max 0 l <= a ->
                    fold_right Z.max a l = a) as Hmax.
  { clear IH. induction l as [|x l IHl]; intros a Ha; simpl in *; [reflexivity|].
    rewrite IHl by lia. lia. }
  rewrite Hmax; lia.
Qed.

Lemma NoDup_map_of_nat (l : list nat) : NoDup l -> NoDup (map Z.of_nat l).
Proof.
  induction 1 as [|x l Hx Hl IH]; simpl; constructor; [|exact IH].
  rewrite in_map_iff. intros (y & Hy & Hin). apply Nat2Z.inj in Hy.
  now subst y.
Qed.

Lemma consecutive_ids_append (db : Session) (row : MetricDB) :
  consecutive_ids db -> id row = next_id db -> consecutive_ids (db ++ [row]).
Proof.
  unfold consecutive_ids, next_id. intros Hc Hid.
  rewrite Hc, max_id_consecutive in Hid.
  rewrite map_app, length_app, Nat.add_comm. simpl List.length.
  rewrite seq_S, map_app, Hc. simpl. rewrite Hid. do 2 f_equal. lia.
Qed.

Lemma run_extends (reqs : list request) (db : Session) :
  exists added, snd (run reqs db) = db ++ added.
Proof.
  revert db. induction reqs as [|req reqs IH]; intros db.
  - exists []. simpl. now rewrite app_nil_r.
  - destruct (run_cons req reqs db) as [-> _].
    destruct (IH (snd (handle req db))) as (added & ->).
    destruct (handle_session req db) as [[_ ->]|[_ (row & _ & ->)]].
    + now exists added.
    + exists (row :: added). now rewrite <- app_assoc.
Qed.

End Runs.

(** X5.  The table is append-only under any sequence of calls: the rows
    present at the start are still there at the end, unchanged and at their
    places, followed by one new row for each POST whose body carries the
    three required fields; a query and a rejected POST add nothing.  Every
    call gets its reply. *)
Theorem run_appends_only (reqs : list request) (db : Session) :
  exists added,
    snd (run reqs db) = db ++ added /\
    List.length added = List.length (filter stores reqs) /\
    List.length (fst (run reqs db)) = List.length reqs.
Proof.
  revert db. induction reqs as [|req reqs IH]; intros db.
  - exists []. simpl. now rewrite app_nil_r.
  - destruct (run_cons req reqs db) as [-> ->].
    destruct (IH (snd (handle req db))) as (added & E & Hlen & Hreplies).
    rewrite E, Hreplies. simpl filter.
    destruct (handle_session req db) as [[-> ->]|[-> (row & _ & ->)]].
    + exists added. auto.
    + exists (row :: added). rewrite <- app_assoc. simpl. auto.
Qed.

(** X6.  If the keys of the table are 1, 2, ..., n in insertion order, they
    still are after any sequence of calls, for the longer table: every
    stored row gets the next integer as its key, and no key occurs twice.
    This holds in particular from the empty table. *)
Theorem run_keeps_consecutive_ids (reqs : list request) (db : Session) :
  consecutive_ids db ->
  consecutive_ids (snd (run reqs db)) /\
  NoDup (map id (snd (run reqs db))).
Proof.
  intros Hc.
  assert (consecutive_ids (snd (run reqs db))) as H.
  { revert db Hc. induction reqs as [|req reqs IH]; intros db Hc; [exact Hc|].
    destruct (run_cons req reqs db) as [-> _]. apply IH.
    destruct (handle_session req db) as [[_ ->]|[_ (row & Hid & ->)]];
      [exact Hc|].
    now apply consecutive_ids_append. }
  split; [exact H|].
  rewrite H. apply NoDup_map_of_nat, seq_NoDup.
Qed.

Lemma run_keeps_consecutive_ids_witness :
  let reqs :=
    [ POST_metrics noon (noon + 1) (json "s1" "temp" 20 Missing);
      GET_metrics_query (noon + 2)
        {| p_sensor_ids := None; p_metrics := None;
           p_statistic := Some "max";
           p_start_date := None; p_end_date := None |};
      POST_metrics (noon + 3) (noon + 4) (json "s1" "temp" 30 Null) ] in
  consecutive_ids (snd (run reqs [])) /\
  NoDup (map id (snd (run reqs []))).
Proof.
  intros reqs. apply (run_keeps_consecutive_ids reqs []). reflexivity.
Defined.

(** X13.  The table a sequence of calls leaves behind is the one left by
    its storing calls alone, in the same order: queries and rejected POSTs
    can be dropped from, or inserted into, the sequence without any effect
    on what is stored. *)
Theorem run_ignores_reads (reqs : list request) (db : Session) :
  snd (run reqs db) = snd (run (filter stores reqs) db).
Proof.
  revert db. induction reqs as [|req reqs IH]; intros db; [reflexivity|].
  destruct (run_cons req reqs db) as [-> _]. simpl filter.
  destruct (handle_session req db) as [[-> ->]|[-> _]].
  - apply IH.
  - destruct (run_cons req (filter stores reqs) db) as [-> _]. apply IH.
Qed.

(** ** What an answer contains *)



Lemma wanted_In (x y : string) (l : list string) :
  wanted (Some (y :: l)) x = true -> In x (y :: l).
Proof.
  unfold wanted. rewrite existsb_exists.
  intros (z & Hin & Hz). apply String.eqb_eq in Hz. now subst z.
Qed.

Lemma values_of_witness (rows : list MetricDB) :
  values_of rows <> [] -> exists r, In r rows /\ value r <> None.
Proof.
  induction rows as [|r rows IH]; simpl; [congruence|].
  destruct (value r) as [x|] eqn:E.
  - intros _. exists r. split; [now left|congruence].
  - simpl. intros H. destruct (IH H) as (r' & Hin & Hv).
    exists r'. split; [now right|exact Hv].
Qed.

(** X10.  Whatever the statistic, every entry of a returned list carries
    the statistic the request named and is backed by a stored row of the
    entry's metric type that holds a value and whose stored wall clock lies
    in the effective window; when a non-empty [metrics] list was given the
    entry's metric type is one of the listed ones, and when a non-empty
    [sensor_ids] list was given the backing row's sensor is one of the
    listed ones.  Nothing that was not asked for is reported. *)
Theorem output_within_request
    (clock : Z) (sensor_ids metrics : option (list string)) (statistic : string)
    (start_date end_date : option datetime) (db : Session)
    (output : list QueryResult) (entry : QueryResult) :
  query_metrics clock sensor_ids metrics statistic start_date end_date db =
  Response 200 output ->
  In entry output ->
  exists s e,
    effective_window clock start_date end_date = Some (s, e) /\
    qr_statistic entry = statistic /\
    exists r,
      In r db /\ metric_type r = qr_metric_type entry /\
      value r <> None /\ in_window s e r = true /\
      (forall m l, metrics = Some (m :: l) -> In (metric_type r) (m :: l)) /\
      (forall x l, sensor_ids = Some (x :: l) -> In (sensor_id r) (x :: l)).
Proof.
  intros H Hin.
  destruct (effective_window clock start_date end_date) as [[s e]|] eqn:Hw;
    [|rewrite (query_metrics_overflow _ _ _ _ _ _ _ Hw) in H; discriminate].
  exists s, e. split; [reflexivity|].
  pose proof (response_200_valid _ _ _ _ _ _ _ _ Hw _ _ H) as Hvalid.
  destruct (get stat_func statistic) as [f|] eqn:Hf.
  - rewrite (response_200_output _ _ _ _ _ _ _ _ Hw _ _ _ Hf H) in Hin.
    apply (entry_in_output _ _ _ _ _ _ _ _ Hf) in Hin
      as (Hstat & a & Ha & _).
    split; [exact Hstat|].
    apply named_statistic_nonempty, values_of_witness in Ha
      as (r & Hr & Hv).
    apply rows_of_In in Hr as (Hdb & Hc & Hk).
    unfold contributes in Hc. rewrite !andb_true_iff in Hc.
    destruct Hc as [[Hs Hm] Ht].
    exists r. repeat split; try assumption.
    + intros m l ->. now apply wanted_In.
    + intros x l ->. now apply wanted_In.
  - rewrite (query_metrics_no_column _ _ _ _ _ _ _ _ Hw _ Hf Hvalid) in H.
    destruct (existsb _ db); [discriminate|].
    injection H as <-. contradiction.
Qed.

Lemma output_within_request_witness :
  let entry := {| qr_metric_type := "temp"; qr_statistic := "sum";
                  qr_value := of_Q 50 |} in
  query_metrics 2000 (Some ["s1"; "s2"]) (Some ["temp"]) "sum"
    (Some {| wall := 0; tzinfo := None |}) None sample_db =
    Response 200 [entry]
  /\ exists s e,
       effective_window 2000 (Some {| wall := 0; tzinfo := None |}) None =
         Some (s, e) /\
       qr_statistic entry = "sum" /\
       exists r,
         In r sample_db /\ metric_type r = qr_metric_type entry /\
         value r <> None /\ in_window s e r = true /\
         (forall m l, Some ["temp"] = Some (m :: l) ->
                      In (metric_type r) (m :: l)) /\
         (forall x l, Some ["s1"; "s2"] = Some (x :: l) ->
                      In (sensor_id r) (x :: l)).
Proof.
  intros entry.
  assert (query_metrics 2000 (Some ["s1"; "s2"]) (Some ["temp"]) "sum"
            (Some {| wall := 0; tzinfo := None |}) None sample_db =
          Response 200 [entry]) as E by (vm_compute; reflexivity).
  split; [exact E|].
  apply (output_within_request 2000 (Some ["s1"; "s2"]) (Some ["temp"]) "sum"
           (Some {| wall := 0; tzinfo := None |}) None sample_db
           [entry] entry E).
  left. reflexivity.
Defined.

(** X15.  The entries of a returned list are in strictly ascending byte
    order of their metric types, whatever the order in which the readings
    were stored. *)
Theorem output_sorted_by_type
    (clock : Z) (sensor_ids metrics : option (list string)) (statistic : string)
    (start_date end_date : option datetime) (db : Session)
    (output : list QueryResult) :
  query_metrics clock sensor_ids metrics statistic start_date end_date db =
  Response 200 output ->
  StronglySorted key_lt (map qr_metric_type output).
Proof.
  intros H.
  destruct (effective_window clock start_date end_date) as [[s e]|] eqn:Hw;
    [|rewrite (query_metrics_overflow _ _ _ _ _ _ _ Hw) in H; discriminate].
  pose proof (response_200_valid _ _ _ _ _ _ _ _ Hw _ _ H) as Hvalid.
  destruct (get stat_func statistic) as [f|] eqn:Hf.
  - rewrite (response_200_output _ _ _ _ _ _ _ _ Hw _ _ _ Hf H).
    apply output_types_sorted, group_keys_sorted.
  - rewrite (query_metrics_no_column _ _ _ _ _ _ _ _ Hw _ Hf Hvalid) in H.
    destruct (existsb _ db); [discriminate|].
    injection H as <-. constructor.
Qed.

Lemma output_sorted_by_type_witness :
  map metric_type sample_db = ["temp"; "temp"; "humidity"] /\
  StronglySorted key_lt ["humidity"; "temp"].
Proof.
  split; [reflexivity|].
  apply (output_sorted_by_type 2000 None None "max"
           (Some {| wall := 0; tzinfo := None |}) None sample_db
           [ {| qr_metric_type := "humidity"; qr_statistic := "max";
                qr_value := of_Q 50 |};
             {| qr_metric_type := "temp"; qr_statistic := "max";
                qr_value := of_Q 30 |} ]).
  vm_compute. reflexivity.
Defined.

(** X16.  A reading whose value is NaN passes validation and is stored,
    without a value; the call itself is answered with status 500, because
    the row that is read back does not fit the response model.  The stored
    row never shows in an answer: a query over a table that holds nothing
    else returns the empty list. *)
Theorem nan_reading_is_stored
    (parsed_at handled_at : Z) (b : Body) (db : Session) (sid mt : string) :
  b_sensor_id b = Given sid -> b_metric_type b = Given mt ->
  b_value b = Given NaN_literal -> b_timestamp b <> Invalid ->
  exists row,
    post_metrics parsed_at handled_at b db =
      (Unhandled "ResponseValidationError", db ++ [row]) /\
    status (fst (post_metrics parsed_at handled_at b db)) = 500 /\
    sensor_id row = sid /\ metric_type row = mt /\ value row = None /\
    forall clock sensor_ids metrics statistic start_date end_date output,
      enumerated statistic ->
      query_metrics clock sensor_ids metrics statistic start_date end_date
        [row] = Response 200 output ->
      output = [].
Proof.
  intros Hs Hm Hv Ht.
  pose proof (post_metrics_parsed parsed_at handled_at b db sid mt
                NaN_literal Hs Hm Hv Ht) as E.
  cbv zeta in E. cbn [parse_float bind_real] in E.
  unfold render_metric in E. cbn [value] in E.
  eexists. split; [exact E|]. rewrite E.
  split; [reflexivity|]. split; [reflexivity|]. split; [reflexivity|].
  split; [reflexivity|].
  intros clock sensor_ids metrics statistic start_date end_date output
         Hstat H.
  apply enumerated_get in Hstat as [f Hf].
  destruct (effective_window clock start_date end_date) as [[s e]|] eqn:Hw;
    [|rewrite (query_metrics_overflow _ _ _ _ _ _ _ Hw) in H; discriminate].
  rewrite (response_200_output _ _ _ _ _ _ _ _ Hw _ _ _ Hf H).
  cbn [filter].
  match goal with |- context [contributes ?a ?b ?c ?d ?r] =>
    destruct (contributes a b c d r) end; [|reflexivity].
  cbn [map metric_type group_keys fold_right insert_key flat_map app].
  unfold entries_of, group. cbn [filter metric_type].
  rewrite String.eqb_refl. reflexivity.
Qed.

Lemma nan_reading_is_stored_witness :
  let b := {| b_sensor_id := Given "s1"; b_metric_type := Given "temp";
              b_value := Given NaN_literal; b_timestamp := Missing |} in
  exists row,
    post_metrics 3000 3001 b sample_db =
      (Unhandled "ResponseValidationError", sample_db ++ [row]) /\
    status (fst (post_metrics 3000 3001 b sample_db)) = 500 /\
    sensor_id row = "s1" /\ metric_type row = "temp" /\ value row = None.
Proof.
  intros b.
  destruct (nan_reading_is_stored 3000 3001 b sample_db "s1" "temp")
    as (row & E & Hst & Hsid & Hmt & Hval & _);
    try reflexivity; [discriminate|].
  exists row. auto.
Defined.

(** ** The tests of [test_main.py] that depend on the clock *)

Section TestRuns.

Lemma post_json (parsed_at handled_at : Z) (sid mt : string) (v : Q)
    (ts : field datetime) (db : Session) :
  is_finite (of_Q v) = true -> ts <> Invalid ->
  let row :=
    {| id := next_id db; sensor_id := sid; metric_type := mt;
       value := Some (of_Q v);
       timestamp := bind_datetime (resolved parsed_at handled_at ts) |} in
  post_metrics parsed_at handled_at (json sid mt v ts) db =
  (Response 201 row, db ++ [row]).
Proof.
  intros Hfin Hts.
  rewrite (post_metrics_parsed parsed_at handled_at (json sid mt v ts) db
             sid mt (Decimal v) eq_refl eq_refl eq_refl Hts).
  unfold render_metric. cbn [value parse_float bind_real].
  destruct (of_Q v); [reflexivity|discriminate].
Qed.

Lemma ago_some (t : Z) (td : timedelta) :
  representable (t - td) ->
  ago t td = Some {| wall := t - td; tzinfo := Some 0 |}.
Proof.
  intros H. unfold ago, sub_timedelta. cbn [wall tzinfo now_utc].
  apply in_range_representable in H. now rewrite H.
Qed.

Lemma in_window_spec (s e : datetime) (r : MetricDB) :
  in_window s e r = true <->
  wall s <= wall (timestamp r) <= wall e.
Proof. unfold in_window. rewrite andb_true_iff, !Z.leb_le. tauto. Qed.

Lemma in_window_false (s e : datetime) (r : MetricDB) :
  wall (timestamp r) < wall s \/ wall e < wall (timestamp r) ->
  in_window s e r = false.
Proof.
  intros H. destruct (in_window s e r) eqn:E; [|reflexivity].
  apply in_window_spec in E. lia.
Qed.

(** The answer of the route, from the rows that contribute. *)
Lemma get_metrics_query_rows (clock : Z) (p : Params) (statistic : string)
    (f : aggregate) (db rows : Session) (s e : datetime)
    (output : list QueryResult) :
  p_statistic p = Some statistic ->
  get stat_func statistic = Some f ->
  effective_window clock (p_start_date p) (p_end_date p) = Some (s, e) ->
  valid_window s e ->
  filter (contributes (p_sensor_ids p) (p_metrics p) s e) db = rows ->
  render_query
    (Response 200
       (flat_map (entries_of statistic f rows)
          (group_keys (map metric_type rows)))) = Response 200 output ->
  get_metrics_query clock p db = (Response 200 output, db).
Proof.
  intros Hp Hf Hw Hvalid <- Hout. unfold get_metrics_query. rewrite Hp.
  assert (enumerated statistic) as Hstat
    by (apply enumerated_get; now exists f).
  rewrite (proj2 (statistic_pattern_enumerated statistic) Hstat).
  rewrite (query_metrics_output _ _ _ _ _ _ db _ _ Hw f Hf Hvalid).
  now rewrite Hout.
Qed.

End TestRuns.

Ltac window_arith :=
  unfold valid_window, representable, days_31, hours_24, instant, utcoffset,
    timedelta_1d12h, timedelta_days, max_wall, microseconds_per_day, utc in *;
  cbn [wall tzinfo timestamp bind_datetime resolved] in *; lia.

Ltac row_in :=
  unfold contributes; apply andb_true_intro; split;
  [reflexivity | apply in_window_spec; window_arith].

Ltac row_out :=
  unfold contributes; apply andb_false_intro2, in_window_false; window_arith.

(** X11.  [test_query_date_range] passes whenever the clock does not run
    backwards between the steps the test depends on, the whole test takes
    at most one day, and it runs between the fourth day of year 1 and the
    end of year 9999: both readings are answered 201, the default query
    reports only the new reading (1010), and the query from three days back
    reports the average of both (1005). *)
Theorem test_query_date_range_passes (t0 p1 h1 p2 h2 t3 t4 t5 : Z) :
  3 * microseconds_per_day <= t0 -> t5 < max_wall ->
  t0 <= p2 -> p2 <= t3 -> t3 <= t4 -> t4 <= t5 ->
  t5 <= t0 + microseconds_per_day ->
  test_query_date_range t0 p1 h1 p2 h2 t3 t4 t5 =
  Some
    [ metric_reply
        (Response 201
           {| id := 1; sensor_id := "s3"; metric_type := "pressure";
              value := Some (of_Q 1000);
              timestamp := {| wall := t0 - 2 * microseconds_per_day;
                              tzinfo := None |} |});
      metric_reply
        (Response 201
           {| id := 2; sensor_id := "s3"; metric_type := "pressure";
              value := Some (of_Q 1010);
              timestamp := {| wall := p2; tzinfo := None |} |});
      query_reply
        (Response 200
           [ {| qr_metric_type := "pressure"; qr_statistic := "average";
                qr_value := of_Q 1010 |} ]);
      query_reply
        (Response 200
           [ {| qr_metric_type := "pressure"; qr_statistic := "average";
                qr_value := of_Q 1005 |} ]) ].
Proof.
  intros Hlo Hhi H1 H2 H3 H4 H5.
  unfold test_query_date_range.
  rewrite (ago_some t0 (timedelta_days 2)) by window_arith.
  rewrite (ago_some t4 (timedelta_days 3)) by window_arith.
  f_equal. unfold run, handle.
  rewrite post_json by (try discriminate; vm_compute; reflexivity).
  cbn [app]. rewrite post_json by (try discriminate; vm_compute; reflexivity).
  cbn [app].
  set (old := {| id := next_id []; sensor_id := "s3";
                 metric_type := "pressure"; value := Some (of_Q 1000);
                 timestamp :=
                   bind_datetime
                     (resolved p1 h1
                        (Given {| wall := t0 - timedelta_days 2;
                                  tzinfo := Some 0 |})) |}).
  set (new := {| id := next_id [old]; sensor_id := "s3";
                 metric_type := "pressure"; value := Some (of_Q 1010);
                 timestamp := bind_datetime (resolved p2 h2 Missing) |}).
  rewrite (get_metrics_query_rows t3
             {| p_sensor_ids := None; p_metrics := Some ["pressure"];
                p_statistic := Some "average";
                p_start_date := None; p_end_date := None |}
             "average" func_avg [old; new] [new]
             {| wall := t3 - hours_24; tzinfo := Some 0 |}
             {| wall := t3; tzinfo := Some 0 |}
             [ {| qr_metric_type := "pressure"; qr_statistic := "average";
                  qr_value := of_Q 1010 |} ] eq_refl eq_refl).
  - rewrite (get_metrics_query_rows t5
             {| p_sensor_ids := None; p_metrics := Some ["pressure"];
                p_statistic := Some "average";
                p_start_date := Some {| wall := t4 - timedelta_days 3; tzinfo := Some 0 |}; p_end_date := None |}
             "average" func_avg [old; new]
               [old; new]
               {| wall := t4 - timedelta_days 3; tzinfo := Some 0 |}
               {| wall := t5; tzinfo := Some 0 |}
               [ {| qr_metric_type := "pressure"; qr_statistic := "average";
                    qr_value := of_Q 1005 |} ] eq_refl eq_refl).
    + reflexivity.
    + reflexivity.
    + window_arith.
    + cbn [filter p_sensor_ids p_metrics].
      assert (contributes None (Some ["pressure"])
                {| wall := t4 - timedelta_days 3; tzinfo := Some 0 |}
                {| wall := t5; tzinfo := Some 0 |}
                old = true) as -> by (unfold old; row_in).
      assert (contributes None (Some ["pressure"])
                {| wall := t4 - timedelta_days 3; tzinfo := Some 0 |}
                {| wall := t5; tzinfo := Some 0 |}
                new = true) as -> by (unfold new; row_in).
      reflexivity.
    + unfold old, new. vm_compute. reflexivity.
  - cbn [p_start_date p_end_date]. apply effective_window_default.
    window_arith.
  - window_arith.
  - cbn [filter p_sensor_ids p_metrics].
    assert (contributes None (Some ["pressure"])
              {| wall := t3 - hours_24; tzinfo := Some 0 |}
              {| wall := t3; tzinfo := Some 0 |}
              old = false) as -> by (unfold old; row_out).
    assert (contributes None (Some ["pressure"])
              {| wall := t3 - hours_24; tzinfo := Some 0 |}
              {| wall := t3; tzinfo := Some 0 |}
              new = true) as -> by (unfold new; row_in).
    reflexivity.
  - unfold new. vm_compute. reflexivity.
Qed.

Lemma test_query_date_range_passes_witness :
  let t := noon in
  match test_query_date_range t (t + 1) (t + 2) (t + 3) (t + 4) (t + 5)
          (t + 6) (t + 7) with
  | Some replies =>
      nth_error replies 3 =
      Some (query_reply
              (Response 200
                 [ {| qr_metric_type := "pressure"; qr_statistic := "average";
                      qr_value := of_Q 1005 |} ]))
  | None => False
  end.
Proof.
  intros t.
  rewrite (test_query_date_range_passes t (t + 1) (t + 2) (t + 3) (t + 4)
             (t + 5) (t + 6) (t + 7));
    [reflexivity| | | | | | |]; vm_compute; (reflexivity || discriminate).
Defined.

(** X12.  [test_query_implicit_defaults] passes whenever the clock does not
    run backwards between the test's own readings, the last of them is at
    most 12 hours after the first, and the test runs between the fourth day
    of year 1 and the end of year 9999: the query with only a start three
    days back reports the reading stored two days back (100), and the query
    with only an end one day back reports the reading stored a day and a
    half back (50). *)
Theorem test_query_implicit_defaults_passes
    (t0 p1 h1 t2 t3 t4 p5 h5 t6 t7 : Z) :
  3 * microseconds_per_day <= t0 -> t6 < max_wall ->
  t0 <= t2 -> t2 <= t3 -> t3 <= t4 -> t4 <= t6 ->
  t6 <= t0 + 12 * 3600 * 1000000 ->
  test_query_implicit_defaults t0 p1 h1 t2 t3 t4 p5 h5 t6 t7 =
  Some
    [ metric_reply
        (Response 201
           {| id := 1; sensor_id := "s_implicit"; metric_type := "val";
              value := Some (of_Q 100);
              timestamp := {| wall := t0 - 2 * microseconds_per_day;
                              tzinfo := None |} |});
      query_reply
        (Response 200
           [ {| qr_metric_type := "val"; qr_statistic := "average";
                qr_value := of_Q 100 |} ]);
      metric_reply
        (Response 201
           {| id := 2; sensor_id := "s_implicit_2"; metric_type := "val2";
              value := Some (of_Q 50);
              timestamp := {| wall := t4 - 36 * 3600 * 1000000;
                              tzinfo := None |} |});
      query_reply
        (Response 200
           [ {| qr_metric_type := "val2"; qr_statistic := "average";
                qr_value := of_Q 50 |} ]) ].
Proof.
  intros Hlo Hhi H1 H2 H3 H4 H5.
  unfold test_query_implicit_defaults.
  rewrite (ago_some t0 (timedelta_days 2)) by window_arith.
  rewrite (ago_some t2 (timedelta_days 3)) by window_arith.
  rewrite (ago_some t4 timedelta_1d12h) by window_arith.
  rewrite (ago_some t6 (timedelta_days 1)) by window_arith.
  f_equal. unfold run, handle.
  rewrite post_json by (try discriminate; vm_compute; reflexivity).
  cbn [app].
  set (r1 := {| id := next_id []; sensor_id := "s_implicit";
                metric_type := "val"; value := Some (of_Q 100);
                timestamp :=
                  bind_datetime
                    (resolved p1 h1
                       (Given {| wall := t0 - timedelta_days 2;
                                 tzinfo := Some 0 |})) |}).
  rewrite (get_metrics_query_rows t3
             {| p_sensor_ids := None; p_metrics := Some ["val"];
                p_statistic := Some "average";
                p_start_date := Some {| wall := t2 - timedelta_days 3; tzinfo := Some 0 |}; p_end_date := None |}
             "average" func_avg [r1] [r1]
             {| wall := t2 - timedelta_days 3; tzinfo := Some 0 |}
             {| wall := t3; tzinfo := Some 0 |}
             [ {| qr_metric_type := "val"; qr_statistic := "average";
                  qr_value := of_Q 100 |} ] eq_refl eq_refl).
  - rewrite post_json by (try discriminate; vm_compute; reflexivity).
    cbn [app].
    set (r2 := {| id := next_id [r1]; sensor_id := "s_implicit_2";
                  metric_type := "val2"; value := Some (of_Q 50);
                  timestamp :=
                    bind_datetime
                      (resolved p5 h5
                         (Given {| wall := t4 - timedelta_1d12h;
                                   tzinfo := Some 0 |})) |}).
    rewrite (get_metrics_query_rows t7
             {| p_sensor_ids := None; p_metrics := Some ["val2"];
                p_statistic := Some "average";
                p_start_date := None; p_end_date := Some {| wall := t6 - timedelta_days 1; tzinfo := Some 0 |} |}
             "average" func_avg [r1; r2] [r2]
               {| wall := t6 - timedelta_days 1 - hours_24;
                  tzinfo := Some 0 |}
               {| wall := t6 - timedelta_days 1; tzinfo := Some 0 |}
               [ {| qr_metric_type := "val2"; qr_statistic := "average";
                    qr_value := of_Q 50 |} ] eq_refl eq_refl).
    + reflexivity.
    + cbn [p_start_date p_end_date].
      apply (effective_window_end t7
               {| wall := t6 - timedelta_days 1; tzinfo := Some 0 |}).
      window_arith.
    + window_arith.
    + cbn [filter p_sensor_ids p_metrics].
      assert (contributes None (Some ["val2"])
                {| wall := t6 - timedelta_days 1 - hours_24;
                   tzinfo := Some 0 |}
                {| wall := t6 - timedelta_days 1; tzinfo := Some 0 |}
                r1 = false) as -> by reflexivity.
      assert (contributes None (Some ["val2"])
                {| wall := t6 - timedelta_days 1 - hours_24;
                   tzinfo := Some 0 |}
                {| wall := t6 - timedelta_days 1; tzinfo := Some 0 |}
                r2 = true) as -> by (unfold r2; row_in).
      reflexivity.
    + unfold r2. vm_compute. reflexivity.
  - reflexivity.
  - window_arith.
  - cbn [filter p_sensor_ids p_metrics].
    assert (contributes None (Some ["val"])
              {| wall := t2 - timedelta_days 3; tzinfo := Some 0 |}
              {| wall := t3; tzinfo := Some 0 |}
              r1 = true) as -> by (unfold r1; row_in).
    reflexivity.
  - unfold r1. vm_compute. reflexivity.
Qed.

Lemma test_query_implicit_defaults_passes_witness :
  let t := noon in
  match test_query_implicit_defaults t (t + 1) (t + 2) (t + 3) (t + 4)
          (t + 5) (t + 6) (t + 7) (t + 8) (t + 9) with
  | Some replies =>
      nth_error replies 3 =
      Some (query_reply
              (Response 200
                 [ {| qr_metric_type := "val2"; qr_statistic := "average";
                      qr_value := of_Q 50 |} ]))
  | None => False
  end.
Proof.
  intros t.
  rewrite (test_query_implicit_defaults_passes t (t + 1) (t + 2) (t + 3)
             (t + 4) (t + 5) (t + 6) (t + 7) (t + 8) (t + 9));
    [reflexivity| | | | | | |]; vm_compute; (reflexivity || discriminate).
Defined.
